(** * StackScope: a shallow embedding of [StackScope.h]

    StackScope is a header-only memory profiler for the ATmega328P.  The
    embedding below follows the header function by function.  The monitor's
    four [static volatile] globals, the architecture state it reads (stack
    pointer, [__brkval], [&__heap_start], data memory) and the USART data
    register it writes are gathered in one [machine] record, and every C
    function becomes a computation in a small state monad over it.

    Conventions.
    - [uint16_t] and [uint8_t] values are integers with the wrap-around
      written out ([u16], [u8]).  On AVR [int] is 16 bits wide, so
      [uint16_t] arithmetic is carried out modulo 65536 and 16-bit pointers
      wrap the same way.
    - Data memory is a total map from addresses to byte values.  The
      globals, [__brkval] and the stack pointer are kept apart from it: a
      store through a pointer does not change them.
    - The busy-wait of [StackScope_WaitTX] is not represented: the USART is
      a sink that records each byte stored to [UDR0].
    - The two loops are structural recursions on a trip-count bound that is
      computed from the loop's own guard; lemmas [paint_loop_fuel] and
      [scan_loop_fuel] show that any larger bound yields the same result. *)

From Stdlib Require Import ZArith List Bool Lia.
Import ListNotations.
Local Open Scope Z_scope.

(** ** Machine integers *)

Definition u16 (z : Z) : Z := z mod 65536.
Definition u8 (z : Z) : Z := z mod 256.

Definition is_u16 (z : Z) : Prop := 0 <= z < 65536.
Definition is_u8 (z : Z) : Prop := 0 <= z < 256.

(** ** Compile-time constants *)

Definition STACKSCOPE_HEADER : Z := 0xFE.
Definition STACKSCOPE_HANDSHAKE : Z := 0xA5.
Definition STACKSCOPE_VERSION : Z := 0x02.
Definition STACKSCOPE_RATE_LIMIT : Z := 256.
Definition STACKSCOPE_ALERT_THRESHOLD : Z := 50.
Definition STACKSCOPE_PAINT_PATTERN : Z := 0xAA.
Definition STACKSCOPE_RAMSTART : Z := 0x0100.
Definition STACKSCOPE_RAMSIZE : Z := 2048.

Definition STACKSCOPE_FLAG_ALERT : Z := Z.shiftl 1 0.
Definition STACKSCOPE_FLAG_COLLISION : Z := Z.shiftl 1 1.
Definition STACKSCOPE_FLAG_PEAK_NEW : Z := Z.shiftl 1 2.
Definition STACKSCOPE_FLAG_HEAP_ACTIVE : Z := Z.shiftl 1 3.

(** Modelled from the spec: [RAMEND] comes from [<avr/io.h>], which is not
    part of the repository.  It is the spec's [ram_end], the last address of
    the RAM described by the geometry constants [ram_start] and [ram_size]
    (0x08FF on the ATmega328P). *)
Definition RAMEND : Z := STACKSCOPE_RAMSTART + STACKSCOPE_RAMSIZE - 1.

(** ** Machine state *)

(** The four [static volatile] globals of the header. *)
Record monitor : Type := Monitor {
  stackscope_enabled : Z;        (* uint8_t  *)
  stackscope_call_counter : Z;   (* uint16_t *)
  stackscope_peak_usage : Z;     (* uint16_t *)
  stackscope_painted_end : Z     (* uint16_t *)
}.

(** Architecture state read by the monitor. *)
Record platform : Type := Platform {
  SP : Z;            (* SPH:SPL, I/O registers 0x3E:0x3D *)
  brkval : Z;        (* __brkval, as an address; 0 is the null pointer *)
  heap_start : Z;    (* &__heap_start *)
  ram : Z -> Z       (* data memory, one byte per address *)
}.

(** [uart] lists the bytes stored to [UDR0], oldest first.  [stores] lists
    the addresses stored through a pointer, oldest first. *)
Record machine : Type := Machine {
  mon : monitor;
  hw : platform;
  uart : list Z;
  stores : list Z
}.

Definition wf_monitor (s : monitor) : Prop :=
  is_u8 (stackscope_enabled s) /\ is_u16 (stackscope_call_counter s) /\
  is_u16 (stackscope_peak_usage s) /\ is_u16 (stackscope_painted_end s).

Definition wf_platform (h : platform) : Prop :=
  is_u16 (SP h) /\ is_u16 (brkval h) /\ is_u16 (heap_start h).

Definition wf_machine (m : machine) : Prop :=
  wf_monitor (mon m) /\ wf_platform (hw m).

(** ** A state monad over [machine] *)

Definition M (A : Type) : Type := machine -> A * machine.

Definition ret {A : Type} (a : A) : M A := fun m => (a, m).

Definition bind {A B : Type} (c : M A) (k : A -> M B) : M B :=
  fun m => let (a, m') := c m in k a m'.

Notation "x <- c ;; k" := (bind c (fun x => k))
  (at level 61, c at next level, right associativity).
Notation "c ;; k" := (bind c (fun _ => k))
  (at level 61, right associativity).

Definition exec {A : Type} (c : M A) (m : machine) : machine := snd (c m).
Definition eval {A : Type} (c : M A) (m : machine) : A := fst (c m).

Definition gets {A : Type} (f : machine -> A) : M A := fun m => (f m, m).
Definition modify (f : machine -> machine) : M unit := fun m => (tt, f m).

(** Reads and writes of the globals. *)

Definition set_mon (f : monitor -> monitor) (m : machine) : machine :=
  Machine (f (mon m)) (hw m) (uart m) (stores m).

Definition set_enabled (v : Z) : M unit :=
  modify (set_mon (fun s =>
    Monitor v (stackscope_call_counter s) (stackscope_peak_usage s)
            (stackscope_painted_end s))).

Definition set_call_counter (v : Z) : M unit :=
  modify (set_mon (fun s =>
    Monitor (stackscope_enabled s) v (stackscope_peak_usage s)
            (stackscope_painted_end s))).

Definition set_peak_usage (v : Z) : M unit :=
  modify (set_mon (fun s =>
    Monitor (stackscope_enabled s) (stackscope_call_counter s) v
            (stackscope_painted_end s))).

Definition set_painted_end (v : Z) : M unit :=
  modify (set_mon (fun s =>
    Monitor (stackscope_enabled s) (stackscope_call_counter s)
            (stackscope_peak_usage s) v)).

Definition get_enabled : M Z := gets (fun m => stackscope_enabled (mon m)).
Definition get_call_counter : M Z :=
  gets (fun m => stackscope_call_counter (mon m)).
Definition get_peak_usage : M Z :=
  gets (fun m => stackscope_peak_usage (mon m)).
Definition get_painted_end : M Z :=
  gets (fun m => stackscope_painted_end (mon m)).

(** Memory accesses through a pointer [p]: reading it and assigning to it. *)

Definition load (p : Z) : M Z := gets (fun m => ram (hw m) p).

Definition poke (mem : Z -> Z) (p v : Z) : Z -> Z :=
  fun a => if a =? p then v else mem a.

Definition store (p v : Z) : M unit :=
  modify (fun m =>
    Machine (mon m)
            (Platform (SP (hw m)) (brkval (hw m)) (heap_start (hw m))
                      (poke (ram (hw m)) p v))
            (uart m)
            (stores m ++ [p])).

(** ** The header's functions *)

Definition StackScope_GetSP : M Z := gets (fun m => SP (hw m)).

Definition StackScope_GetHeapUsage : M Z :=
  b <- gets (fun m => brkval (hw m)) ;;
  if b =? 0 then ret 0
  else
    hs <- gets (fun m => heap_start (hw m)) ;;
    ret (u16 (b - hs)).

Definition StackScope_GetHeapEnd : M Z :=
  b <- gets (fun m => brkval (hw m)) ;;
  if b =? 0 then gets (fun m => heap_start (hw m))
  else ret b.

(** The paint loop: for [p] from [paint_start] while [p < paint_end], store
    the pattern at [p] and increment [p]. *)
Fixpoint paint_loop (fuel : nat) (p paint_end : Z) : M unit :=
  match fuel with
  | O => ret tt
  | S fuel' =>
      if p <? paint_end then
        store p STACKSCOPE_PAINT_PATTERN ;;
        paint_loop fuel' (u16 (p + 1)) paint_end
      else ret tt
  end.

Definition StackScope_PaintStack : M unit :=
  sp <- StackScope_GetSP ;;
  heap_end <- StackScope_GetHeapEnd ;;
  let paint_start := heap_end in
  let paint_end := u16 (sp - 32) in
  if paint_end >? paint_start then
    paint_loop (Z.to_nat (paint_end - paint_start)) paint_start paint_end ;;
    set_painted_end paint_end
  else ret tt.

(** The scan loop: while [scan > heap_end], leave the loop if the byte at
    [scan] differs from the pattern, otherwise decrement [scan]. *)
Fixpoint scan_loop (fuel : nat) (scan : Z) : M Z :=
  match fuel with
  | O => ret scan
  | S fuel' =>
      heap_end <- StackScope_GetHeapEnd ;;
      if scan >? heap_end then
        b <- load scan ;;
        if negb (b =? STACKSCOPE_PAINT_PATTERN) then ret scan
        else scan_loop fuel' (u16 (scan - 1))
      else ret scan
  end.

Definition StackScope_GetPaintedUsage : M Z :=
  pe <- get_painted_end ;;
  if pe =? 0 then
    sp <- StackScope_GetSP ;;
    ret (u16 (RAMEND - sp))
  else
    heap_end <- StackScope_GetHeapEnd ;;
    scan <- scan_loop (Z.to_nat (pe - heap_end)) pe ;;
    ret (u16 (RAMEND - scan)).

Definition StackScope_SendByte (data : Z) : M unit :=
  modify (fun m => Machine (mon m) (hw m) (uart m ++ [data]) (stores m)).

Definition StackScope_SendWord (data : Z) : M unit :=
  StackScope_SendByte (u8 (Z.shiftr data 8)) ;;
  StackScope_SendByte (u8 (Z.land data 0xFF)).

Definition StackScope_Init : M unit :=
  set_enabled 0 ;;
  set_call_counter 0 ;;
  set_peak_usage 0 ;;
  StackScope_PaintStack.

Definition StackScope_IsHandshakeByte (byte : Z) : Z :=
  if byte =? STACKSCOPE_HANDSHAKE then 1 else 0.

Definition StackScope_TriggerHandshake : M unit :=
  set_enabled 1 ;;
  StackScope_PaintStack.

Definition StackScope_GetPeak : M Z := get_peak_usage.

Definition StackScope_ResetPeak : M unit := set_peak_usage 0.

Definition StackScope_Check : M unit :=
  en <- get_enabled ;;
  if en =? 0 then ret tt
  else
    c <- get_call_counter ;;
    set_call_counter (u16 (c + 1)) ;;
    c <- get_call_counter ;;
    if negb (Z.land c (STACKSCOPE_RATE_LIMIT - 1) =? 0) then ret tt
    else
      stack_usage <- StackScope_GetPaintedUsage ;;
      heap_usage <- StackScope_GetHeapUsage ;;
      heap_end <- StackScope_GetHeapEnd ;;
      sp <- StackScope_GetSP ;;
      let free_memory := if sp >? heap_end then u16 (sp - heap_end) else 0 in
      let flags := 0 in
      peak <- get_peak_usage ;;
      flags <- (if stack_usage >? peak then
                  set_peak_usage stack_usage ;;
                  ret (Z.lor flags STACKSCOPE_FLAG_PEAK_NEW)
                else ret flags) ;;
      let flags := if free_memory <? STACKSCOPE_ALERT_THRESHOLD
                   then Z.lor flags STACKSCOPE_FLAG_ALERT else flags in
      let flags := if sp <=? u16 (heap_end + 16)
                   then Z.lor flags STACKSCOPE_FLAG_COLLISION else flags in
      let flags := if heap_usage >? 0
                   then Z.lor flags STACKSCOPE_FLAG_HEAP_ACTIVE else flags in
      StackScope_SendByte STACKSCOPE_HEADER ;;
      StackScope_SendByte flags ;;
      StackScope_SendWord stack_usage ;;
      peak <- get_peak_usage ;;
      StackScope_SendWord peak ;;
      StackScope_SendWord heap_usage ;;
      StackScope_SendWord free_memory.

(** ** Traces of the host program

    Between two calls into the monitor the host program runs: the stack
    pointer moves, the heap grows and memory is written.  A trace gives the
    architecture state found by each successive call. *)

Definition with_hw (h : platform) (m : machine) : machine :=
  Machine (mon m) h (uart m) (stores m).

Fixpoint run_checks (trace : list platform) (m : machine) : machine :=
  match trace with
  | [] => m
  | h :: trace' => run_checks trace' (exec StackScope_Check (with_hw h m))
  end.

(** The bytes that a computation appends to the USART log. *)
Definition emitted {A : Type} (c : M A) (m : machine) : list Z :=
  skipn (length (uart m)) (uart (exec c m)).

(** The bytes emitted by each call of a trace of [StackScope_Check] calls. *)
Fixpoint check_emissions (trace : list platform) (m : machine)
  : list (list Z) :=
  match trace with
  | [] => []
  | h :: trace' =>
      emitted StackScope_Check (with_hw h m)
        :: check_emissions trace' (exec StackScope_Check (with_hw h m))
  end.

(** The public operations that the handshake state machine is subject to. *)
Inductive operation : Type :=
| OpCheck
| OpTriggerHandshake
| OpResetPeak.

Definition run_operation (o : operation) : M unit :=
  match o with
  | OpCheck => StackScope_Check
  | OpTriggerHandshake => StackScope_TriggerHandshake
  | OpResetPeak => StackScope_ResetPeak
  end.

Fixpoint run_operations (trace : list (platform * operation)) (m : machine)
  : machine :=
  match trace with
  | [] => m
  | (h, o) :: trace' =>
      run_operations trace' (exec (run_operation o) (with_hw h m))
  end.

(** ** Views used in the statements *)

Definition heap_end_of (m : machine) : Z := eval StackScope_GetHeapEnd m.
Definition heap_usage_of (m : machine) : Z := eval StackScope_GetHeapUsage m.
Definition painted_usage_of (m : machine) : Z :=
  eval StackScope_GetPaintedUsage m.

(** The rate limiter's decision for the call that starts in [m]. *)
Definition samples (m : machine) : bool :=
  negb (stackscope_enabled (mon m) =? 0) &&
  (Z.land (u16 (stackscope_call_counter (mon m) + 1))
          (STACKSCOPE_RATE_LIMIT - 1) =? 0).

(** Big-endian encoding of a 16-bit field, and its decoding. *)
Definition be16 (x : Z) : list Z := [x / 256; x mod 256].
Definition be16_decode (hi lo : Z) : Z := 256 * hi + lo.

(** Consecutive addresses [p], [p + 1], ..., [p + n - 1]. *)
Fixpoint addresses (p : Z) (n : nat) : list Z :=
  match n with
  | O => []
  | S n' => p :: addresses (p + 1) n'
  end.

(** ** The scanner as the specification words it

    [scan_stop_claimed m stop]: going down from the painted boundary, [stop]
    is the first address above the heap break whose byte differs from the
    pattern, or it is the heap break when every scanned byte equals the
    pattern. *)
Definition scan_stop_claimed (m : machine) (stop : Z) : Prop :=
  let pe := stackscope_painted_end (mon m) in
  let he := heap_end_of m in
  (he < stop <= pe /\
   ram (hw m) stop <> STACKSCOPE_PAINT_PATTERN /\
   forall a, stop < a <= pe -> ram (hw m) a = STACKSCOPE_PAINT_PATTERN)
  \/
  (stop = he /\
   forall a, he < a <= pe -> ram (hw m) a = STACKSCOPE_PAINT_PATTERN).

Definition ScanUsage_claimed (m : machine) (usage : Z) : Prop :=
  if stackscope_painted_end (mon m) =? 0 then
    usage = u16 (RAMEND - SP (hw m))
  else
    exists stop, scan_stop_claimed m stop /\ usage = u16 (RAMEND - stop).

(** The addresses that a computation appends to the store log. *)
Definition stored {A : Type} (c : M A) (m : machine) : list Z :=
  skipn (length (stores m)) (stores (exec c m)).

(** The flags byte of the frame emitted by a sampling call: the byte that
    follows the header. *)
Definition check_flags (m : machine) : Z :=
  nth 1 (emitted StackScope_Check m) 0.

(** ** Concrete machines *)

(** Enabled, one call before the rate limiter lets a sample through; the
    painted region has been overwritten down to address 0x08C0. *)
Definition machine_sampling : machine :=
  Machine (Monitor 1 255 0x10 0x08D0)
          (Platform 0x08F0 0x0300 0x0200
                    (fun a => if a <? 0x08C0 then 0xAA else 0x00))
          [] [].

(** Never enabled. *)
Definition machine_disabled : machine :=
  Machine (Monitor 0 7 0 0)
          (Platform 0x08F0 0 0x0200 (fun _ => 0x00))
          [] [].

(** Stack top five bytes above the heap break, nothing painted yet. *)
Definition machine_collision : machine :=
  Machine (Monitor 1 255 0 0)
          (Platform 0x0305 0x0300 0x0200 (fun _ => 0x00))
          [] [].

(** The heap has grown past the painted boundary, and memory holds the
    pattern everywhere. *)
Definition machine_heap_above_boundary : machine :=
  Machine (Monitor 1 255 0 0x0200)
          (Platform 0x08F0 0x0300 0x0180 (fun _ => 0xAA))
          [] [].

(** Room to paint: 64 bytes between the heap break and the stack pointer. *)
Definition machine_paintable : machine :=
  Machine (Monitor 0 0 0 0)
          (Platform 0x0340 0x0300 0x0200 (fun _ => 0x00))
          [] [].

(** Enabled, with the call counter 36 calls away from 16-bit wrap-around. *)
Definition machine_near_wrap : machine :=
  Machine (Monitor 1 65500 0 0)
          (Platform 0x08F0 0 0x0200 (fun _ => 0x00))
          [] [].

(** Register values at which 16-bit arithmetic wraps: a stack pointer
    below the 32-byte margin, and a heap break within 16 bytes of the top of
    the address space. *)
Definition machine_low_sp : machine :=
  Machine (Monitor 0 0 0 0)
          (Platform 0x0010 0x0300 0x0200 (fun _ => 0x00))
          [] [].

Definition machine_high_break : machine :=
  Machine (Monitor 1 255 0 0)
          (Platform 0x0100 0xFFF8 0x0200 (fun _ => 0x00))
          [] [].

(** ** The transmitter's busy-wait

    [StackScope_WaitTX] polls the USART status register [UCSR0A] until its
    data-register-empty bit is set.  The register is volatile: [status t] is
    the value that the poll number [t] reads.  The bit index [udre0] stands
    for [UDRE0] of [<avr/io.h>], which is not part of the repository.  The
    result is the number of the poll that found the transmitter ready, or
    [None] when the bound on the number of polls is used up first. *)
Definition tx_busy (udre0 : Z) (ucsr0a : Z) : bool :=
  Z.land ucsr0a (Z.shiftl 1 udre0) =? 0.

Fixpoint StackScope_WaitTX (udre0 : Z) (status : nat -> Z)
                           (fuel : nat) (t : nat) : option nat :=
  match fuel with
  | O => None
  | S fuel' =>
      if tx_busy udre0 (status t)
      then StackScope_WaitTX udre0 status fuel' (S t)
      else Some t
  end.

(** ** Whole traces of the public interface *)

Inductive api_call : Type :=
| CallInit
| CallCheck
| CallTriggerHandshake
| CallResetPeak
| CallGetPeak.

Definition run_call (c : api_call) : M unit :=
  match c with
  | CallInit => StackScope_Init
  | CallCheck => StackScope_Check
  | CallTriggerHandshake => StackScope_TriggerHandshake
  | CallResetPeak => StackScope_ResetPeak
  | CallGetPeak => _ <- StackScope_GetPeak ;; ret tt
  end.

Fixpoint run_calls (trace : list (platform * api_call)) (m : machine)
  : machine :=
  match trace with
  | [] => m
  | (h, c) :: trace' => run_calls trace' (exec (run_call c) (with_hw h m))
  end.

(** The number of frames transmitted along a trace of [StackScope_Check]
    calls. *)
Definition is_frame (f : list Z) : bool :=
  match f with
  | [] => false
  | _ :: _ => true
  end.

Definition frames_sent (trace : list platform) (m : machine) : nat :=
  length (filter is_frame (check_emissions trace m)).

(** The stack usage measured by each sampling call of a trace, oldest
    first. *)
Fixpoint sampled_usages (trace : list platform) (m : machine) : list Z :=
  match trace with
  | [] => []
  | h :: trace' =>
      (if samples (with_hw h m) then [painted_usage_of (with_hw h m)] else [])
      ++ sampled_usages trace' (exec StackScope_Check (with_hw h m))
  end.

(** ** Basic facts *)

(** Range conditions on a concrete machine. *)
Ltac solve_wf :=
  unfold wf_machine, wf_monitor, wf_platform, is_u16, is_u8; cbn; lia.


Lemma u16_range (z : Z) : is_u16 (u16 z).
Proof. unfold is_u16, u16. apply Z.mod_pos_bound. lia. Qed.

Lemma u16_id (z : Z) : is_u16 z -> u16 z = z.
Proof. unfold is_u16, u16. intros H. apply Z.mod_small. exact H. Qed.

Lemma u8_range (z : Z) : is_u8 (u8 z).
Proof. unfold is_u8, u8. apply Z.mod_pos_bound. lia. Qed.

Lemma heap_end_of_eq (m : machine) :
  heap_end_of m =
  if brkval (hw m) =? 0 then heap_start (hw m) else brkval (hw m).
Proof.
  unfold heap_end_of, eval, StackScope_GetHeapEnd, bind, gets, ret. cbn.
  destruct (brkval (hw m) =? 0); reflexivity.
Qed.

Lemma GetHeapEnd_run (m : machine) :
  StackScope_GetHeapEnd m = (heap_end_of m, m).
Proof.
  unfold heap_end_of, eval, StackScope_GetHeapEnd, bind, gets, ret. cbn.
  destruct (brkval (hw m) =? 0); reflexivity.
Qed.

Lemma heap_usage_of_eq (m : machine) :
  heap_usage_of m =
  if brkval (hw m) =? 0 then 0 else u16 (brkval (hw m) - heap_start (hw m)).
Proof.
  unfold heap_usage_of, eval, StackScope_GetHeapUsage, bind, gets, ret. cbn.
  destruct (brkval (hw m) =? 0); reflexivity.
Qed.

Lemma GetHeapUsage_run (m : machine) :
  StackScope_GetHeapUsage m = (heap_usage_of m, m).
Proof.
  unfold heap_usage_of, eval, StackScope_GetHeapUsage, bind, gets, ret. cbn.
  destruct (brkval (hw m) =? 0); reflexivity.
Qed.

Lemma heap_end_of_range (m : machine) :
  wf_platform (hw m) -> is_u16 (heap_end_of m).
Proof.
  intros (_ & Hb & Hs). rewrite heap_end_of_eq.
  destruct (brkval (hw m) =? 0); assumption.
Qed.

Lemma heap_usage_of_range (m : machine) : is_u16 (heap_usage_of m).
Proof.
  rewrite heap_usage_of_eq. destruct (brkval (hw m) =? 0).
  - unfold is_u16. lia.
  - apply u16_range.
Qed.

(** ** The paint loop *)

Lemma exec_bind {A B : Type} (c : M A) (k : A -> M B) (m : machine) :
  exec (bind c k) m = exec (k (eval c m)) (exec c m).
Proof. unfold exec, eval, bind. destruct (c m). reflexivity. Qed.

Lemma eval_bind {A B : Type} (c : M A) (k : A -> M B) (m : machine) :
  eval (bind c k) m = eval (k (eval c m)) (exec c m).
Proof. unfold exec, eval, bind. destruct (c m). reflexivity. Qed.

Lemma addresses_length (n : nat) (p : Z) : length (addresses p n) = n.
Proof.
  revert p. induction n as [|n IH]; intros p; cbn; [reflexivity|].
  now rewrite IH.
Qed.

Lemma addresses_In (n : nat) (p a : Z) :
  In a (addresses p n) <-> p <= a < p + Z.of_nat n.
Proof.
  revert p. induction n as [|n IH]; intros p; cbn [addresses In].
  - lia.
  - rewrite IH. lia.
Qed.

Lemma addresses_succ (p e : Z) :
  p < e ->
  addresses p (Z.to_nat (e - p)) = p :: addresses (p + 1) (Z.to_nat (e - (p + 1))).
Proof.
  intros H. replace (Z.to_nat (e - p)) with (S (Z.to_nat (e - (p + 1)))) by lia.
  reflexivity.
Qed.

(** What the paint loop does when started at [p] with a bound of at least
    [paint_end - p] iterations. *)
Lemma paint_loop_run (paint_end : Z) :
  is_u16 paint_end ->
  forall (n : nat) (p : Z) (m : machine),
    0 <= p -> paint_end - p <= Z.of_nat n ->
    let m' := exec (paint_loop n p paint_end) m in
    mon m' = mon m /\ uart m' = uart m /\
    SP (hw m') = SP (hw m) /\ brkval (hw m') = brkval (hw m) /\
    heap_start (hw m') = heap_start (hw m) /\
    stores m' = stores m ++ addresses p (Z.to_nat (paint_end - p)) /\
    forall a, ram (hw m') a =
              if (p <=? a) && (a <? paint_end)
              then STACKSCOPE_PAINT_PATTERN else ram (hw m) a.
Proof.
  intros He n. induction n as [|n IH]; intros p m Hp Hn.
  - cbn. replace (Z.to_nat (paint_end - p)) with O by lia.
    cbn. rewrite app_nil_r. repeat split; try reflexivity.
    intros a. destruct (p <=? a) eqn:E1, (a <? paint_end) eqn:E2;
      cbn; try reflexivity; lia.
  - cbn [paint_loop]. destruct (p <? paint_end) eqn:Elt.
    + apply Z.ltb_lt in Elt.
      rewrite exec_bind.
      assert (Hu : u16 (p + 1) = p + 1)
        by (apply u16_id; unfold is_u16 in *; lia).
      rewrite Hu.
      set (m1 := exec (store p STACKSCOPE_PAINT_PATTERN) m).
      destruct (IH (p + 1) m1) as (Hm & Hua & Hsp & Hb & Hh & Hst & Hram);
        [lia | lia |].
      cbv zeta. rewrite Hm, Hua, Hsp, Hb, Hh, Hst.
      subst m1. unfold exec, store, modify. cbn.
      repeat split; try reflexivity.
      * rewrite <- app_assoc. cbn. rewrite (addresses_succ p paint_end Elt).
        reflexivity.
      * intros a. rewrite Hram. unfold exec, store, modify, poke. cbn.
        destruct (p + 1 <=? a) eqn:E1, (a <? paint_end) eqn:E2,
                 (p <=? a) eqn:E3, (a =? p) eqn:E4; cbn; try reflexivity; lia.
    + apply Z.ltb_ge in Elt. cbn.
      replace (Z.to_nat (paint_end - p)) with O by lia.
      cbn. rewrite app_nil_r. repeat split; try reflexivity.
      intros a. destruct (p <=? a) eqn:E1, (a <? paint_end) eqn:E2;
        cbn; try reflexivity; lia.
Qed.

(** Enough iterations: every bound of at least [paint_end - p] gives the
    machine that the exact trip count gives. *)
Lemma paint_loop_fuel (paint_end : Z) :
  is_u16 paint_end ->
  forall (n k : nat) (p : Z) (m : machine),
    0 <= p ->
    (Z.to_nat (paint_end - p) <= n)%nat ->
    (Z.to_nat (paint_end - p) <= k)%nat ->
    paint_loop n p paint_end m = paint_loop k p paint_end m.
Proof.
  intros He n. induction n as [|n IH]; intros k p m Hp Hn Hk.
  - destruct k as [|k]; [reflexivity|].
    cbn [paint_loop]. destruct (p <? paint_end) eqn:Elt; [|reflexivity].
    apply Z.ltb_lt in Elt. lia.
  - cbn [paint_loop]. destruct (p <? paint_end) eqn:Elt.
    + pose proof (proj1 (Z.ltb_lt _ _) Elt) as Hlt.
      destruct k as [|k]; [lia|].
      cbn [paint_loop]. rewrite Elt. unfold bind.
      destruct (store p STACKSCOPE_PAINT_PATTERN m) as [u m1].
      assert (Hu : u16 (p + 1) = p + 1)
        by (apply u16_id; unfold is_u16 in *; lia).
      rewrite Hu. apply IH; lia.
    + destruct k as [|k]; [reflexivity|].
      cbn [paint_loop]. rewrite Elt. reflexivity.
Qed.

(** ** The scan loop *)

Lemma scan_loop_pure (n : nat) (scan : Z) (m : machine) :
  scan_loop n scan m = (eval (scan_loop n scan) m, m).
Proof.
  revert scan. induction n as [|n IH]; intros scan; [reflexivity|].
  unfold eval. cbn [scan_loop]. unfold bind. rewrite GetHeapEnd_run.
  destruct (scan >? heap_end_of m); [|reflexivity].
  unfold load, gets.
  destruct (negb (ram (hw m) scan =? STACKSCOPE_PAINT_PATTERN));
    [reflexivity|].
  rewrite IH. reflexivity.
Qed.

Lemma scan_loop_step (n : nat) (scan : Z) (m : machine) :
  eval (scan_loop (S n) scan) m =
  if scan >? heap_end_of m then
    if negb (ram (hw m) scan =? STACKSCOPE_PAINT_PATTERN) then scan
    else eval (scan_loop n (u16 (scan - 1))) m
  else scan.
Proof.
  unfold eval at 1. cbn [scan_loop]. unfold bind. rewrite GetHeapEnd_run.
  destruct (scan >? heap_end_of m); [|reflexivity].
  unfold load, gets.
  destruct (negb (ram (hw m) scan =? STACKSCOPE_PAINT_PATTERN));
    reflexivity.
Qed.

(** Where the scan stops when started at [scan] with a bound of at least
    [scan - heap_end] iterations. *)
Lemma scan_loop_stop (m : machine) :
  0 <= heap_end_of m ->
  forall (n : nat) (scan : Z),
    scan < 65536 ->
    scan - heap_end_of m <= Z.of_nat n ->
    let r := eval (scan_loop n scan) m in
    (scan <= heap_end_of m -> r = scan) /\
    (heap_end_of m < scan ->
     heap_end_of m <= r <= scan /\
     (forall a, r < a <= scan -> ram (hw m) a = STACKSCOPE_PAINT_PATTERN) /\
     (r = heap_end_of m \/ ram (hw m) r <> STACKSCOPE_PAINT_PATTERN)).
Proof.
  intros Hhe n. induction n as [|n IH]; intros scan Hs Hn; cbv zeta.
  - cbn. split; [reflexivity|]. intros H. lia.
  - rewrite scan_loop_step.
    destruct (scan >? heap_end_of m) eqn:Egt.
    + apply Z.gtb_lt in Egt. split; [lia|]. intros _.
      destruct (ram (hw m) scan =? STACKSCOPE_PAINT_PATTERN) eqn:Eb; cbn [negb].
      * apply Z.eqb_eq in Eb.
        assert (Hu : u16 (scan - 1) = scan - 1)
          by (apply u16_id; unfold is_u16; lia).
        rewrite Hu.
        destruct (IH (scan - 1)) as [Hle Hgt]; [lia | lia |].
        destruct (Z.eq_dec (scan - 1) (heap_end_of m)) as [Heq | Hne].
        -- rewrite Hle by lia. split; [lia|]. split.
           ++ intros a Ha. replace a with scan by lia. exact Eb.
           ++ left. exact Heq.
        -- destruct Hgt as (Hr & Hall & Hstop); [lia|].
           split; [lia|]. split; [|exact Hstop].
           intros a Ha. destruct (Z.eq_dec a scan) as [-> | Hna];
             [exact Eb | apply Hall; lia].
      * apply Z.eqb_neq in Eb. split; [lia|]. split.
        -- intros a Ha. lia.
        -- right. exact Eb.
    + assert (scan <= heap_end_of m) by (rewrite Z.gtb_ltb in Egt; apply Z.ltb_ge in Egt; exact Egt).
      split; [reflexivity|]. intros Hlt. lia.
Qed.

(** Enough iterations: every bound of at least [scan - heap_end] gives the
    stop address that the exact trip count gives. *)
Lemma scan_loop_fuel (m : machine) :
  0 <= heap_end_of m ->
  forall (n k : nat) (scan : Z),
    scan < 65536 ->
    (Z.to_nat (scan - heap_end_of m) <= n)%nat ->
    (Z.to_nat (scan - heap_end_of m) <= k)%nat ->
    scan_loop n scan m = scan_loop k scan m.
Proof.
  intros Hhe n k scan Hs Hn Hk.
  rewrite (scan_loop_pure n), (scan_loop_pure k). f_equal.
  revert k scan Hs Hn Hk.
  induction n as [|n IH]; intros k scan Hs Hn Hk.
  - destruct k as [|k]; [reflexivity|].
    rewrite scan_loop_step. cbn.
    destruct (scan >? heap_end_of m) eqn:Egt; [|reflexivity].
    apply Z.gtb_lt in Egt. lia.
  - rewrite scan_loop_step.
    destruct (scan >? heap_end_of m) eqn:Egt.
    + pose proof (proj1 (Z.gtb_lt _ _) Egt) as Hgt.
      destruct k as [|k]; [lia|].
      rewrite scan_loop_step, Egt.
      destruct (negb (ram (hw m) scan =? STACKSCOPE_PAINT_PATTERN));
        [reflexivity|].
      assert (Hu : u16 (scan - 1) = scan - 1)
        by (apply u16_id; unfold is_u16; lia).
      rewrite Hu. apply IH; lia.
    + destruct k as [|k]; [reflexivity|].
      rewrite scan_loop_step, Egt. reflexivity.
Qed.

Lemma GetPaintedUsage_run (m : machine) :
  StackScope_GetPaintedUsage m = (painted_usage_of m, m).
Proof.
  unfold painted_usage_of, eval, StackScope_GetPaintedUsage, bind,
    get_painted_end, StackScope_GetSP, gets, ret.
  destruct (stackscope_painted_end (mon m) =? 0); [reflexivity|].
  rewrite GetHeapEnd_run, scan_loop_pure. reflexivity.
Qed.

Lemma painted_usage_of_eq (m : machine) :
  painted_usage_of m =
  if stackscope_painted_end (mon m) =? 0 then u16 (RAMEND - SP (hw m))
  else u16 (RAMEND -
            eval (scan_loop (Z.to_nat (stackscope_painted_end (mon m)
                                       - heap_end_of m))
                            (stackscope_painted_end (mon m))) m).
Proof.
  unfold painted_usage_of, eval at 1, StackScope_GetPaintedUsage, bind,
    get_painted_end, StackScope_GetSP, gets, ret.
  destruct (stackscope_painted_end (mon m) =? 0); [reflexivity|].
  rewrite GetHeapEnd_run, scan_loop_pure. reflexivity.
Qed.

Lemma painted_usage_of_range (m : machine) : is_u16 (painted_usage_of m).
Proof.
  rewrite painted_usage_of_eq.
  destruct (stackscope_painted_end (mon m) =? 0); apply u16_range.
Qed.

(** ** One call of [StackScope_Check] *)

Lemma scan_loop_hw (n : nat) (scan : Z) (m m' : machine) :
  hw m = hw m' ->
  eval (scan_loop n scan) m = eval (scan_loop n scan) m'.
Proof.
  intros H. revert scan. induction n as [|n IH]; intros scan; [reflexivity|].
  rewrite !scan_loop_step, !heap_end_of_eq, H, IH. reflexivity.
Qed.

Lemma painted_usage_of_hw (m m' : machine) :
  hw m = hw m' ->
  stackscope_painted_end (mon m) = stackscope_painted_end (mon m') ->
  painted_usage_of m = painted_usage_of m'.
Proof.
  intros H Hp.
  rewrite !painted_usage_of_eq, !heap_end_of_eq, H, Hp.
  rewrite (scan_loop_hw _ _ m m' H). reflexivity.
Qed.

Lemma samples_true (m : machine) :
  samples m = true <->
  (stackscope_enabled (mon m) =? 0) = false /\
  (Z.land (u16 (stackscope_call_counter (mon m) + 1))
          (STACKSCOPE_RATE_LIMIT - 1) =? 0) = true.
Proof.
  unfold samples. rewrite andb_true_iff, negb_true_iff. reflexivity.
Qed.

Lemma Check_disabled (m : machine) :
  stackscope_enabled (mon m) = 0 -> StackScope_Check m = (tt, m).
Proof.
  intros H. unfold StackScope_Check, bind, get_enabled, gets.
  rewrite H. reflexivity.
Qed.

(** An enabled call that the rate limiter suppresses only counts. *)
Lemma Check_skip (m : machine) :
  (stackscope_enabled (mon m) =? 0) = false ->
  (Z.land (u16 (stackscope_call_counter (mon m) + 1))
          (STACKSCOPE_RATE_LIMIT - 1) =? 0) = false ->
  StackScope_Check m =
  (tt, Machine (Monitor (stackscope_enabled (mon m))
                        (u16 (stackscope_call_counter (mon m) + 1))
                        (stackscope_peak_usage (mon m))
                        (stackscope_painted_end (mon m)))
               (hw m) (uart m) (stores m)).
Proof.
  intros Hen Hc.
  cbv [StackScope_Check bind get_enabled get_call_counter set_call_counter
       gets modify ret set_mon].
  rewrite Hen. cbn [mon stackscope_call_counter]. rewrite Hc. reflexivity.
Qed.

(** A sampling call, spelled out. *)
Lemma Check_sample_run (m : machine) :
  samples m = true ->
  let su := painted_usage_of m in
  let hu := heap_usage_of m in
  let he := heap_end_of m in
  let sp := SP (hw m) in
  let fm := if sp >? he then u16 (sp - he) else 0 in
  let pk := stackscope_peak_usage (mon m) in
  let f2 := if su >? pk then Z.lor 0 STACKSCOPE_FLAG_PEAK_NEW else 0 in
  let f0 := if fm <? STACKSCOPE_ALERT_THRESHOLD
            then Z.lor f2 STACKSCOPE_FLAG_ALERT else f2 in
  let f1 := if sp <=? u16 (he + 16)
            then Z.lor f0 STACKSCOPE_FLAG_COLLISION else f0 in
  let f3 := if hu >? 0 then Z.lor f1 STACKSCOPE_FLAG_HEAP_ACTIVE else f1 in
  let pk' := if su >? pk then su else pk in
  StackScope_Check m =
  (tt, Machine (Monitor (stackscope_enabled (mon m))
                        (u16 (stackscope_call_counter (mon m) + 1))
                        pk'
                        (stackscope_painted_end (mon m)))
               (hw m)
               (uart m ++
                [STACKSCOPE_HEADER; f3;
                 u8 (Z.shiftr su 8); u8 (Z.land su 0xFF);
                 u8 (Z.shiftr pk' 8); u8 (Z.land pk' 0xFF);
                 u8 (Z.shiftr hu 8); u8 (Z.land hu 0xFF);
                 u8 (Z.shiftr fm 8); u8 (Z.land fm 0xFF)])
               (stores m)).
Proof.
  intros Hs. apply samples_true in Hs. destruct Hs as [Hen Hc].
  cbv zeta.
  set (m1 := Machine (Monitor (stackscope_enabled (mon m))
                        (u16 (stackscope_call_counter (mon m) + 1))
                        (stackscope_peak_usage (mon m))
                        (stackscope_painted_end (mon m)))
               (hw m) (uart m) (stores m)).
  assert (Hsu : painted_usage_of m1 = painted_usage_of m)
    by (apply painted_usage_of_hw; reflexivity).
  assert (Hhe : heap_end_of m1 = heap_end_of m)
    by (rewrite !heap_end_of_eq; reflexivity).
  assert (Hhu : heap_usage_of m1 = heap_usage_of m)
    by (rewrite !heap_usage_of_eq; reflexivity).
  cbv [StackScope_Check bind get_enabled get_call_counter set_call_counter
       gets modify ret set_mon].
  rewrite Hen. cbn [mon stackscope_call_counter]. rewrite Hc. cbn [negb].
  fold m1.
  rewrite GetPaintedUsage_run, GetHeapUsage_run, GetHeapEnd_run.
  rewrite Hsu, Hhe, Hhu.
  cbv [StackScope_GetSP gets get_peak_usage].
  cbn [mon hw stackscope_peak_usage m1].
  destruct (painted_usage_of m >? stackscope_peak_usage (mon m)) eqn:Epk;
    cbv [bind set_peak_usage modify set_mon ret StackScope_SendWord
         StackScope_SendByte gets];
    cbn [mon hw uart stores stackscope_enabled stackscope_call_counter
         stackscope_peak_usage stackscope_painted_end m1];
    repeat rewrite <- app_assoc; cbn [app]; reflexivity.
Qed.

(** The three ways a call of [StackScope_Check] can go: it samples, it
    returns at once because the monitor is disabled, or the rate limiter
    suppresses it.  Each case rewrites the call with its run lemma. *)
Ltac Check_cases m :=
  let Hs := fresh "Hs" in
  let Hen := fresh "Hen" in
  destruct (samples m) eqn:Hs;
  [ rewrite (Check_sample_run m Hs)
  | destruct (stackscope_enabled (mon m) =? 0) eqn:Hen;
    [ apply Z.eqb_eq in Hen; rewrite (Check_disabled m Hen)
    | unfold samples in Hs; rewrite Hen in Hs; cbn in Hs;
      rewrite (Check_skip m Hen Hs) ] ].

Lemma skipn_length_app {A : Type} (l1 l2 : list A) :
  skipn (length l1) (l1 ++ l2) = l2.
Proof. induction l1 as [|x l1 IH]; [reflexivity | exact IH]. Qed.

Lemma emitted_of_uart {A : Type} (c : M A) (m : machine) (l : list Z) :
  uart (exec c m) = uart m ++ l -> emitted c m = l.
Proof. intros H. unfold emitted. rewrite H. apply skipn_length_app. Qed.

Lemma stored_of_stores {A : Type} (c : M A) (m : machine) (l : list Z) :
  stores (exec c m) = stores m ++ l -> stored c m = l.
Proof. intros H. unfold stored. rewrite H. apply skipn_length_app. Qed.

Lemma emitted_Check_disabled (m : machine) :
  stackscope_enabled (mon m) = 0 -> emitted StackScope_Check m = [].
Proof.
  intros H. apply emitted_of_uart. unfold exec.
  rewrite (Check_disabled m H). cbn. now rewrite app_nil_r.
Qed.

Lemma emitted_Check_skip (m : machine) :
  samples m = false -> emitted StackScope_Check m = [].
Proof.
  intros H. apply emitted_of_uart. unfold exec.
  destruct (stackscope_enabled (mon m) =? 0) eqn:Hen.
  - apply Z.eqb_eq in Hen. rewrite (Check_disabled m Hen). cbn.
    now rewrite app_nil_r.
  - unfold samples in H. rewrite Hen in H. cbn in H.
    rewrite (Check_skip m Hen H). cbn. now rewrite app_nil_r.
Qed.

Lemma Check_counter (m : machine) :
  (stackscope_enabled (mon m) =? 0) = false ->
  stackscope_call_counter (mon (exec StackScope_Check m)) =
  u16 (stackscope_call_counter (mon m) + 1).
Proof.
  intros Hen. unfold exec. destruct (samples m) eqn:Hs.
  - rewrite (Check_sample_run m Hs). reflexivity.
  - unfold samples in Hs. rewrite Hen in Hs. cbn in Hs.
    rewrite (Check_skip m Hen Hs). reflexivity.
Qed.

Lemma Check_enabled (m : machine) :
  stackscope_enabled (mon (exec StackScope_Check m)) =
  stackscope_enabled (mon m).
Proof. unfold exec. Check_cases m; reflexivity. Qed.

Lemma emitted_Check_sample_length (m : machine) :
  samples m = true -> length (emitted StackScope_Check m) = 10%nat.
Proof.
  intros Hs. pose proof (Check_sample_run m Hs) as H. cbv zeta in H.
  erewrite emitted_of_uart; [|unfold exec; rewrite H; cbn [snd uart]; reflexivity].
  reflexivity.
Qed.

(** The rate limiter's mask test is a test of the counter modulo 256. *)
Lemma rate_mask_mod (c : Z) :
  Z.land (u16 c) (STACKSCOPE_RATE_LIMIT - 1) = c mod STACKSCOPE_RATE_LIMIT.
Proof.
  unfold STACKSCOPE_RATE_LIMIT, u16.
  change (256 - 1) with (Z.ones 8). rewrite Z.land_ones by lia.
  change (2 ^ 8) with 256. change 65536 with (256 * 256).
  rewrite Z.rem_mul_r by lia.
  rewrite (Z.mul_comm 256 ((c / 256) mod 256)), Z.mod_add by lia.
  apply Z.mod_mod. lia.
Qed.

(** ** High-water-mark scanner *)

(** C1, as stated, fails: with the heap break above the painted boundary
    and the pattern in every byte, [StackScope_GetPaintedUsage] scans
    nothing and returns [RAMEND] minus the painted boundary, which is
    neither a byte that differs from the pattern nor the heap boundary. *)
Lemma GetPaintedUsage_heap_above_boundary :
  wf_machine machine_heap_above_boundary /\
  stackscope_painted_end (mon machine_heap_above_boundary) <> 0 /\
  painted_usage_of machine_heap_above_boundary = 0x06FF /\
  ~ ScanUsage_claimed machine_heap_above_boundary
      (painted_usage_of machine_heap_above_boundary).
Proof.
  split; [|split; [|split]].
  - solve_wf.
  - cbn. lia.
  - vm_compute. reflexivity.
  - unfold ScanUsage_claimed. cbn [machine_heap_above_boundary mon
      stackscope_painted_end Z.eqb Pos.eqb].
    intros (stop & Hstop & Husage).
    assert (Hhe : heap_end_of machine_heap_above_boundary = 0x0300)
      by (vm_compute; reflexivity).
    assert (Hu : painted_usage_of machine_heap_above_boundary = 0x06FF)
      by (vm_compute; reflexivity).
    rewrite Hu in Husage.
    destruct Hstop as [(Hrange & _) | (Heq & _)].
    + rewrite Hhe in Hrange. cbn in Hrange. lia.
    + rewrite Hhe in Heq. subst stop. vm_compute in Husage. discriminate.
Qed.

(** C1 (amended).  [StackScope_GetPaintedUsage] changes no state.  With no
    painted boundary it returns the 16-bit difference [RAMEND - SP].  With a
    painted boundary at or above the heap break it returns [RAMEND] minus
    the stop address of the downward scan: the first address above the heap
    break whose byte differs from 0xAA, or the heap break when every scanned
    byte is 0xAA.  With a painted boundary below the heap break it scans
    nothing and returns [RAMEND] minus the painted boundary. *)
Theorem GetPaintedUsage_scan (m : machine) :
  wf_machine m ->
  StackScope_GetPaintedUsage m = (painted_usage_of m, m) /\
  (stackscope_painted_end (mon m) = 0 \/
   heap_end_of m <= stackscope_painted_end (mon m) ->
   ScanUsage_claimed m (painted_usage_of m)) /\
  (stackscope_painted_end (mon m) <> 0 ->
   stackscope_painted_end (mon m) < heap_end_of m ->
   painted_usage_of m = u16 (RAMEND - stackscope_painted_end (mon m))).
Proof.
  intros [(_ & _ & _ & Hpe) Hhw].
  pose proof (heap_end_of_range m Hhw) as Hhe.
  unfold is_u16 in Hpe, Hhe.
  set (pe := stackscope_painted_end (mon m)) in *.
  assert (Hstop := scan_loop_stop m (proj1 Hhe) (Z.to_nat (pe - heap_end_of m))
                     pe (proj2 Hpe) ltac:(lia)).
  cbv zeta in Hstop. destruct Hstop as [Hle Hgt].
  split; [apply GetPaintedUsage_run|]. split.
  - intros Hcase. unfold ScanUsage_claimed. fold pe.
    rewrite painted_usage_of_eq. fold pe.
    destruct (pe =? 0) eqn:E0; [reflexivity|].
    apply Z.eqb_neq in E0. destruct Hcase as [H0 | Hhp]; [contradiction|].
    set (r := eval (scan_loop (Z.to_nat (pe - heap_end_of m)) pe) m) in *.
    exists r. split; [|reflexivity].
    unfold scan_stop_claimed. fold pe. cbv zeta.
    destruct (Z.eq_dec pe (heap_end_of m)) as [Heq | Hne].
    + right. split; [rewrite Hle by lia; exact Heq|]. intros a Ha. lia.
    + destruct Hgt as (Hr & Hall & Hend); [lia|].
      destruct (Z.eq_dec r (heap_end_of m)) as [Hrh | Hrh].
      * right. split; [exact Hrh|]. intros a Ha. apply Hall. lia.
      * left. destruct Hend as [Hend | Hend]; [contradiction|].
        split; [lia|]. split; [exact Hend | exact Hall].
  - intros H0 Hlt. rewrite painted_usage_of_eq. fold pe.
    destruct (pe =? 0) eqn:E0; [apply Z.eqb_eq in E0; contradiction|].
    rewrite Hle by lia. reflexivity.
Qed.

Lemma GetPaintedUsage_scan_witness :
  wf_machine machine_sampling /\
  ScanUsage_claimed machine_sampling (painted_usage_of machine_sampling) /\
  painted_usage_of machine_sampling = 0x2F.
Proof.
  assert (Hwf : wf_machine machine_sampling).
  { solve_wf. }
  split; [exact Hwf|]. split.
  - apply (GetPaintedUsage_scan machine_sampling Hwf). right.
    vm_compute. discriminate.
  - vm_compute. reflexivity.
Defined.

(** ** Policy flags *)

Lemma emitted_Check_sample (m : machine) :
  samples m = true ->
  let su := painted_usage_of m in
  let hu := heap_usage_of m in
  let he := heap_end_of m in
  let sp := SP (hw m) in
  let fm := if sp >? he then u16 (sp - he) else 0 in
  let pk' := stackscope_peak_usage (mon (exec StackScope_Check m)) in
  emitted StackScope_Check m =
  [STACKSCOPE_HEADER; check_flags m;
   u8 (Z.shiftr su 8); u8 (Z.land su 0xFF);
   u8 (Z.shiftr pk' 8); u8 (Z.land pk' 0xFF);
   u8 (Z.shiftr hu 8); u8 (Z.land hu 0xFF);
   u8 (Z.shiftr fm 8); u8 (Z.land fm 0xFF)].
Proof.
  intros Hs. pose proof (Check_sample_run m Hs) as H. cbv zeta in H.
  cbv zeta. unfold check_flags.
  assert (Hex : exec StackScope_Check m = snd (StackScope_Check m))
    by reflexivity.
  rewrite H in Hex. cbn [snd] in Hex.
  erewrite emitted_of_uart; [|rewrite Hex; cbn [uart]; reflexivity].
  rewrite Hex. reflexivity.
Qed.

Lemma check_flags_bits (m : machine) :
  samples m = true ->
  let he := heap_end_of m in
  let sp := SP (hw m) in
  let fm := if sp >? he then u16 (sp - he) else 0 in
  Z.testbit (check_flags m) 0 = (fm <? STACKSCOPE_ALERT_THRESHOLD) /\
  Z.testbit (check_flags m) 1 = (sp <=? u16 (he + 16)) /\
  Z.testbit (check_flags m) 2 =
    (painted_usage_of m >? stackscope_peak_usage (mon m)) /\
  Z.testbit (check_flags m) 3 = (heap_usage_of m >? 0) /\
  is_u8 (check_flags m).
Proof.
  intros Hs. pose proof (Check_sample_run m Hs) as H. cbv zeta in H.
  cbv zeta. unfold check_flags.
  erewrite emitted_of_uart;
    [|unfold exec; rewrite H; cbn [snd uart]; reflexivity].
  cbn [nth].
  destruct (painted_usage_of m >? stackscope_peak_usage (mon m));
    destruct ((if SP (hw m) >? heap_end_of m
               then u16 (SP (hw m) - heap_end_of m) else 0)
              <? STACKSCOPE_ALERT_THRESHOLD);
    destruct (SP (hw m) <=? u16 (heap_end_of m + 16));
    destruct (heap_usage_of m >? 0);
    vm_compute; intuition congruence.
Qed.

Lemma free_memory_max (m : machine) :
  wf_platform (hw m) ->
  (if SP (hw m) >? heap_end_of m
   then u16 (SP (hw m) - heap_end_of m) else 0)
  = Z.max 0 (SP (hw m) - heap_end_of m).
Proof.
  intros Hhw. pose proof (heap_end_of_range m Hhw) as Hhe.
  destruct Hhw as (Hsp & _). unfold is_u16 in *.
  destruct (SP (hw m) >? heap_end_of m) eqn:E.
  - apply Z.gtb_lt in E. rewrite u16_id by (unfold is_u16; lia). lia.
  - rewrite Z.gtb_ltb in E. apply Z.ltb_ge in E. lia.
Qed.

(** C2, as stated, fails: the sum [heap_end + 16] is a 16-bit sum.  With the
    heap break at 0xFFF8 it wraps to 0x0008, so a stack pointer of 0x0100,
    although below [heap_end + 16], leaves bit 1 (Collision) clear. *)
Lemma Check_collision_sum_wraps :
  wf_machine machine_high_break /\
  samples machine_high_break = true /\
  SP (hw machine_high_break) <= heap_end_of machine_high_break + 16 /\
  Z.testbit (check_flags machine_high_break) 1 = false /\
  ~ (Z.testbit (check_flags machine_high_break) 1 = true <->
     SP (hw machine_high_break) <= heap_end_of machine_high_break + 16).
Proof.
  assert (Hle : SP (hw machine_high_break)
                <= heap_end_of machine_high_break + 16)
    by (vm_compute; discriminate).
  assert (Hbit : Z.testbit (check_flags machine_high_break) 1 = false)
    by (vm_compute; reflexivity).
  split; [solve_wf|]. split; [reflexivity|].
  split; [exact Hle|]. split; [exact Hbit|].
  intros [_ H]. rewrite (H Hle) in Hbit. discriminate.
Qed.

(** C2 (amended).  On a sampling call the flags byte has bit 0 set exactly
    when [free_memory < 50], with [free_memory = max 0 (SP - heap_end)];
    bit 1 set exactly when [SP] is at most the 16-bit sum [heap_end + 16],
    which is the integer sum whenever that fits 16 bits; bit 3 set exactly
    when [heap_usage > 0].  Each bit follows from its own condition alone,
    and some machine sets all four bits at once. *)
Theorem Check_flags_policy :
  (forall m : machine,
      wf_platform (hw m) ->
      samples m = true ->
      let free_memory := Z.max 0 (SP (hw m) - heap_end_of m) in
      (Z.testbit (check_flags m) 0 = true <->
       free_memory < STACKSCOPE_ALERT_THRESHOLD) /\
      (Z.testbit (check_flags m) 1 = true <->
       SP (hw m) <= u16 (heap_end_of m + 16)) /\
      (heap_end_of m + 16 < 65536 ->
       (Z.testbit (check_flags m) 1 = true <->
        SP (hw m) <= heap_end_of m + 16)) /\
      (Z.testbit (check_flags m) 3 = true <-> heap_usage_of m > 0)) /\
  (exists m : machine,
      wf_machine m /\ samples m = true /\
      Z.testbit (check_flags m) 0 = true /\
      Z.testbit (check_flags m) 1 = true /\
      Z.testbit (check_flags m) 2 = true /\
      Z.testbit (check_flags m) 3 = true).
Proof.
  split.
  - intros m Hhw Hs. cbv zeta.
    destruct (check_flags_bits m Hs) as (B0 & B1 & _ & B3 & _).
    cbv zeta in B0. rewrite (free_memory_max m Hhw) in B0.
    rewrite B0, B1, B3.
    pose proof (heap_end_of_range m Hhw) as Hhe. unfold is_u16 in Hhe.
    rewrite Z.ltb_lt, Z.leb_le, Z.gtb_lt.
    split; [lia|]. split; [reflexivity|]. split; [|lia].
    intros Hfit. rewrite u16_id by (unfold is_u16; lia). reflexivity.
  - exists machine_collision. split; [|split].
    + solve_wf.
    + reflexivity.
    + vm_compute. repeat split.
Qed.

Lemma Check_flags_policy_witness :
  wf_platform (hw machine_sampling) /\
  samples machine_sampling = true /\
  (Z.testbit (check_flags machine_sampling) 0 = true <->
   Z.max 0 (SP (hw machine_sampling) - heap_end_of machine_sampling)
   < STACKSCOPE_ALERT_THRESHOLD).
Proof.
  assert (Hwf : wf_platform (hw machine_sampling)).
  { solve_wf. }
  split; [exact Hwf|]. split; [reflexivity|].
  apply (proj1 Check_flags_policy machine_sampling Hwf eq_refl).
Defined.

(** ** Rate limiter *)

Lemma u16_mod_rate (c : Z) :
  u16 c mod STACKSCOPE_RATE_LIMIT = c mod STACKSCOPE_RATE_LIMIT.
Proof.
  rewrite <- (rate_mask_mod c). unfold STACKSCOPE_RATE_LIMIT.
  change (256 - 1) with (Z.ones 8). rewrite Z.land_ones by lia. reflexivity.
Qed.

Lemma samples_with_hw (h : platform) (m : machine) :
  samples (with_hw h m) = samples m.
Proof. reflexivity. Qed.

Lemma samples_mod (m : machine) :
  (stackscope_enabled (mon m) =? 0) = false ->
  samples m =
  ((stackscope_call_counter (mon m) + 1) mod STACKSCOPE_RATE_LIMIT =? 0).
Proof.
  intros Hen. unfold samples. rewrite Hen, rate_mask_mod. reflexivity.
Qed.

Lemma uart_Check (m : machine) :
  uart (exec StackScope_Check m) = uart m ++ emitted StackScope_Check m.
Proof.
  destruct (samples m) eqn:Hs.
  - pose proof (Check_sample_run m Hs) as H. cbv zeta in H.
    assert (Hex : exec StackScope_Check m = snd (StackScope_Check m))
      by reflexivity.
    rewrite H in Hex. cbn [snd] in Hex.
    erewrite emitted_of_uart; rewrite Hex; cbn [uart]; reflexivity.
  - rewrite (emitted_Check_skip m Hs), app_nil_r.
    unfold exec. destruct (stackscope_enabled (mon m) =? 0) eqn:Hen.
    + apply Z.eqb_eq in Hen. rewrite (Check_disabled m Hen). reflexivity.
    + unfold samples in Hs. rewrite Hen in Hs. cbn in Hs.
      rewrite (Check_skip m Hen Hs). reflexivity.
Qed.

Lemma run_checks_app (t1 t2 : list platform) (m : machine) :
  run_checks (t1 ++ t2) m = run_checks t2 (run_checks t1 m).
Proof.
  revert m. induction t1 as [|h t1 IH]; intros m; [reflexivity|].
  cbn. apply IH.
Qed.

Lemma check_emissions_app (t1 t2 : list platform) (m : machine) :
  check_emissions (t1 ++ t2) m =
  check_emissions t1 m ++ check_emissions t2 (run_checks t1 m).
Proof.
  revert m. induction t1 as [|h t1 IH]; intros m; [reflexivity|].
  cbn. now rewrite IH.
Qed.

Lemma uart_run_checks (trace : list platform) (m : machine) :
  uart (run_checks trace m) = uart m ++ concat (check_emissions trace m).
Proof.
  revert m. induction trace as [|h t IH]; intros m;
    cbn [run_checks check_emissions concat].
  - now rewrite app_nil_r.
  - rewrite IH, uart_Check, <- app_assoc. reflexivity.
Qed.

(** Calls that stay below the next multiple of 256 emit nothing. *)
Lemma run_checks_quiet (trace : list platform) :
  forall m : machine,
    (stackscope_enabled (mon m) =? 0) = false ->
    stackscope_call_counter (mon m) mod STACKSCOPE_RATE_LIMIT
      + Z.of_nat (length trace) < STACKSCOPE_RATE_LIMIT ->
    check_emissions trace m = repeat [] (length trace) /\
    (stackscope_enabled (mon (run_checks trace m)) =? 0) = false /\
    stackscope_call_counter (mon (run_checks trace m)) mod STACKSCOPE_RATE_LIMIT
    = stackscope_call_counter (mon m) mod STACKSCOPE_RATE_LIMIT
      + Z.of_nat (length trace).
Proof.
  induction trace as [|h t IH]; intros m Hen Hlen.
  - cbn. split; [reflexivity|]. split; [exact Hen|]. lia.
  - cbn [length] in Hlen. rewrite Nat2Z.inj_succ in Hlen.
    set (c := stackscope_call_counter (mon m)) in *.
    assert (Hr : 0 <= c mod STACKSCOPE_RATE_LIMIT < STACKSCOPE_RATE_LIMIT)
      by (apply Z.mod_pos_bound; reflexivity).
    assert (Hc1 : (c + 1) mod STACKSCOPE_RATE_LIMIT
                  = c mod STACKSCOPE_RATE_LIMIT + 1).
    { rewrite Z.add_mod by (unfold STACKSCOPE_RATE_LIMIT; lia).
      change (1 mod STACKSCOPE_RATE_LIMIT) with 1.
      apply Z.mod_small. lia. }
    set (m0 := with_hw h m).
    assert (Hen0 : (stackscope_enabled (mon m0) =? 0) = false) by exact Hen.
    assert (Hs : samples m0 = false).
    { rewrite (samples_mod m0 Hen0). change (stackscope_call_counter (mon m0)) with c.
      rewrite Hc1. apply Z.eqb_neq. lia. }
    destruct (IH (exec StackScope_Check m0)) as (He & Hen' & Hc').
    + rewrite Check_enabled. exact Hen0.
    + rewrite (Check_counter m0 Hen0), u16_mod_rate.
      change (stackscope_call_counter (mon m0)) with c. rewrite Hc1. lia.
    + cbn [check_emissions run_checks length repeat]. fold m0.
      rewrite He, (emitted_Check_skip m0 Hs).
      split; [reflexivity|]. split; [exact Hen'|].
      rewrite Hc', (Check_counter m0 Hen0), u16_mod_rate.
      change (stackscope_call_counter (mon m0)) with c. rewrite Hc1.
      rewrite Nat2Z.inj_succ. lia.
Qed.

Lemma concat_repeat_nil {A : Type} (n : nat) :
  concat (repeat (@nil A) n) = [].
Proof. induction n as [|n IH]; [reflexivity | exact IH]. Qed.

(** C3.  While enabled every call increments the 16-bit counter, and a call
    transmits exactly when the incremented counter is 0 modulo 256.  Hence,
    from every counter value and along every trace of the host, 256
    consecutive calls transmit one 10-byte frame: one call emits it and the
    255 others emit nothing. *)
Theorem rate_limit_one_frame :
  (forall m : machine,
      stackscope_enabled (mon m) <> 0 ->
      stackscope_call_counter (mon (exec StackScope_Check m))
      = u16 (stackscope_call_counter (mon m) + 1) /\
      (emitted StackScope_Check m <> [] <->
       stackscope_call_counter (mon (exec StackScope_Check m))
         mod STACKSCOPE_RATE_LIMIT = 0)) /\
  (forall (trace : list platform) (m : machine),
      stackscope_enabled (mon m) <> 0 ->
      length trace = 256%nat ->
      exists (before after : nat) (frame : list Z),
        check_emissions trace m
        = repeat [] before ++ frame :: repeat [] after /\
        length frame = 10%nat /\
        (before + 1 + after = 256)%nat /\
        uart (run_checks trace m) = uart m ++ frame).
Proof.
  split.
  - intros m Hen. apply Z.eqb_neq in Hen.
    rewrite (Check_counter m Hen). split; [reflexivity|].
    rewrite u16_mod_rate. pose proof (samples_mod m Hen) as Hs.
    destruct (samples m) eqn:E.
    + symmetry in Hs. apply Z.eqb_eq in Hs. split; [intros _; exact Hs|].
      intros _ Hnil. pose proof (emitted_Check_sample_length m E) as Hl.
      rewrite Hnil in Hl. discriminate.
    + symmetry in Hs. apply Z.eqb_neq in Hs.
      rewrite (emitted_Check_skip m E). split; [congruence | contradiction].
  - intros trace m Hen Hlen. apply Z.eqb_neq in Hen.
    set (c := stackscope_call_counter (mon m)).
    assert (Hr : 0 <= c mod STACKSCOPE_RATE_LIMIT < STACKSCOPE_RATE_LIMIT)
      by (apply Z.mod_pos_bound; reflexivity).
    unfold STACKSCOPE_RATE_LIMIT in Hr.
    set (before := Z.to_nat (255 - c mod STACKSCOPE_RATE_LIMIT)).
    assert (Hb : (before < 256)%nat) by (unfold before, STACKSCOPE_RATE_LIMIT; lia).
    rewrite <- (firstn_skipn before trace).
    set (t1 := firstn before trace).
    assert (Hl1 : length t1 = before)
      by (unfold t1; rewrite length_firstn; lia).
    destruct (skipn before trace) as [|h t2] eqn:Esk.
    { pose proof (length_skipn before trace) as Hl. rewrite Esk in Hl.
      cbn in Hl. lia. }
    assert (Hl2 : length t2 = (255 - before)%nat).
    { pose proof (length_skipn before trace) as Hl. rewrite Esk in Hl.
      cbn in Hl. lia. }
    destruct (run_checks_quiet t1 m Hen) as (He1 & Hen1 & Hc1).
    { fold c. rewrite Hl1. unfold before, STACKSCOPE_RATE_LIMIT. lia. }
    fold c in Hc1. rewrite Hl1 in Hc1, He1.
    set (m1 := run_checks t1 m) in *.
    set (m2 := with_hw h m1).
    assert (Hen2 : (stackscope_enabled (mon m2) =? 0) = false) by exact Hen1.
    assert (Hs2 : samples m2 = true).
    { rewrite (samples_mod m2 Hen2).
      change (stackscope_call_counter (mon m2))
        with (stackscope_call_counter (mon m1)).
      rewrite Z.add_mod by (unfold STACKSCOPE_RATE_LIMIT; lia).
      rewrite Hc1. unfold before, STACKSCOPE_RATE_LIMIT.
      rewrite Z2Nat.id by lia.
      replace (c mod 256 + (255 - c mod 256)) with 255 by lia.
      reflexivity. }
    set (m3 := exec StackScope_Check m2).
    destruct (run_checks_quiet t2 m3) as (He3 & _ & _).
    { unfold m3. rewrite Check_enabled. exact Hen2. }
    { unfold m3. rewrite (Check_counter m2 Hen2), u16_mod_rate.
      pose proof (samples_mod m2 Hen2) as Hsm. rewrite Hs2 in Hsm.
      symmetry in Hsm. apply Z.eqb_eq in Hsm. rewrite Hsm, Hl2.
      unfold STACKSCOPE_RATE_LIMIT. lia. }
    exists before, (255 - before)%nat, (emitted StackScope_Check m2).
    assert (Hem : check_emissions (t1 ++ h :: t2) m
                  = repeat [] before
                    ++ emitted StackScope_Check m2 :: repeat [] (255 - before)).
    { rewrite check_emissions_app, He1. fold m1.
      cbn [check_emissions]. fold m2 m3. rewrite He3, Hl2. reflexivity. }
    split; [exact Hem|].
    split; [apply emitted_Check_sample_length; exact Hs2|].
    split; [lia|].
    rewrite uart_run_checks, Hem, concat_app. cbn [concat].
    rewrite !concat_repeat_nil, app_nil_r. reflexivity.
Qed.

Lemma rate_limit_one_frame_witness :
  stackscope_enabled (mon machine_near_wrap) <> 0 /\
  length (repeat (hw machine_near_wrap) 256) = 256%nat /\
  exists (before after : nat) (frame : list Z),
    check_emissions (repeat (hw machine_near_wrap) 256) machine_near_wrap
    = repeat [] before ++ frame :: repeat [] after /\
    length frame = 10%nat /\
    (before + 1 + after = 256)%nat /\
    uart (run_checks (repeat (hw machine_near_wrap) 256) machine_near_wrap)
    = uart machine_near_wrap ++ frame.
Proof.
  assert (Hen : stackscope_enabled (mon machine_near_wrap) <> 0)
    by (cbn; discriminate).
  assert (Hlen : length (repeat (hw machine_near_wrap) 256) = 256%nat)
    by (apply repeat_length).
  split; [exact Hen|]. split; [exact Hlen|].
  exact (proj2 rate_limit_one_frame _ machine_near_wrap Hen Hlen).
Defined.

(** ** Frame conditions of [StackScope_Check] *)

Lemma Check_frame_fields (m : machine) :
  stackscope_enabled (mon (exec StackScope_Check m))
  = stackscope_enabled (mon m) /\
  stackscope_painted_end (mon (exec StackScope_Check m))
  = stackscope_painted_end (mon m) /\
  hw (exec StackScope_Check m) = hw m /\
  stores (exec StackScope_Check m) = stores m /\
  stackscope_peak_usage (mon m)
  <= stackscope_peak_usage (mon (exec StackScope_Check m)).
Proof.
  unfold exec. Check_cases m; cbn; repeat split; try reflexivity.
  destruct (painted_usage_of m >? stackscope_peak_usage (mon m)) eqn:E;
    [apply Z.gtb_lt in E; lia | lia].
Qed.

Lemma Check_peak_unsampled (m : machine) :
  samples m = false ->
  stackscope_peak_usage (mon (exec StackScope_Check m))
  = stackscope_peak_usage (mon m).
Proof.
  intros Hs. unfold exec.
  destruct (stackscope_enabled (mon m) =? 0) eqn:Hen.
  - apply Z.eqb_eq in Hen. rewrite (Check_disabled m Hen). reflexivity.
  - unfold samples in Hs. rewrite Hen in Hs. cbn in Hs.
    rewrite (Check_skip m Hen Hs). reflexivity.
Qed.

Lemma run_checks_peak_le (trace : list platform) :
  forall m : machine,
    stackscope_peak_usage (mon m)
    <= stackscope_peak_usage (mon (run_checks trace m)).
Proof.
  induction trace as [|h t IH]; intros m; cbn [run_checks]; [lia|].
  eapply Z.le_trans; [|apply IH].
  apply (Check_frame_fields (with_hw h m)).
Qed.

(** C4.  While disabled, [StackScope_Check] returns the machine it was
    given.  Along every trace of calls, however long, no byte reaches the
    transport, no address is stored to, and the monitor's state, call
    counter and peak included, stays what it was. *)
Theorem Check_disabled_no_effect (trace : list platform) (m : machine) :
  stackscope_enabled (mon m) = 0 ->
  exec StackScope_Check m = m /\
  mon (run_checks trace m) = mon m /\
  uart (run_checks trace m) = uart m /\
  stores (run_checks trace m) = stores m /\
  check_emissions trace m = repeat [] (length trace).
Proof.
  intros Hen. split.
  { unfold exec. rewrite (Check_disabled m Hen). reflexivity. }
  revert m Hen. induction trace as [|h t IH]; intros m Hen.
  - cbn. repeat split; reflexivity.
  - cbn [run_checks check_emissions length repeat].
    assert (Hen0 : stackscope_enabled (mon (with_hw h m)) = 0) by exact Hen.
    assert (Hex : exec StackScope_Check (with_hw h m) = with_hw h m)
      by (unfold exec; rewrite (Check_disabled _ Hen0); reflexivity).
    rewrite Hex, (emitted_Check_disabled _ Hen0).
    destruct (IH (with_hw h m) Hen0) as (Hm & Hu & Hst & He).
    rewrite Hm, Hu, Hst, He. repeat split; reflexivity.
Qed.

Lemma Check_disabled_no_effect_witness :
  stackscope_enabled (mon machine_disabled) = 0 /\
  mon (run_checks (repeat (hw machine_collision) 300) machine_disabled)
  = mon machine_disabled /\
  uart (run_checks (repeat (hw machine_collision) 300) machine_disabled)
  = uart machine_disabled.
Proof.
  split; [reflexivity|].
  pose proof (Check_disabled_no_effect (repeat (hw machine_collision) 300)
                machine_disabled eq_refl) as (_ & Hm & Hu & _).
  split; [exact Hm | exact Hu].
Defined.

(** ** Peak tracker *)

(** C5.  Along every trace of [StackScope_Check] calls the peak never
    decreases: the peak after a prefix is at most the peak after any
    extension of it.  [StackScope_ResetPeak] sets the peak to 0 and touches
    nothing else.  A sampling call leaves the greater of the old peak and
    the current usage, and sets bit 2 (PeakNew) exactly when the current
    usage exceeds the old peak; a call that does not sample leaves the
    peak alone. *)
Theorem peak_usage_monotone :
  (forall (t1 t2 : list platform) (m : machine),
      stackscope_peak_usage (mon (run_checks t1 m))
      <= stackscope_peak_usage (mon (run_checks (t1 ++ t2) m))) /\
  (forall m : machine,
      exec StackScope_ResetPeak m
      = Machine (Monitor (stackscope_enabled (mon m))
                         (stackscope_call_counter (mon m))
                         0
                         (stackscope_painted_end (mon m)))
                (hw m) (uart m) (stores m)) /\
  (forall m : machine,
      samples m = true ->
      stackscope_peak_usage (mon (exec StackScope_Check m))
      = Z.max (stackscope_peak_usage (mon m)) (painted_usage_of m) /\
      (Z.testbit (check_flags m) 2 = true <->
       painted_usage_of m > stackscope_peak_usage (mon m))) /\
  (forall m : machine,
      samples m = false ->
      stackscope_peak_usage (mon (exec StackScope_Check m))
      = stackscope_peak_usage (mon m)).
Proof.
  split; [|split; [|split]].
  - intros t1 t2 m. rewrite run_checks_app. apply run_checks_peak_le.
  - intros m. reflexivity.
  - intros m Hs. split.
    + unfold exec. rewrite (Check_sample_run m Hs). cbn.
      destruct (painted_usage_of m >? stackscope_peak_usage (mon m)) eqn:E.
      * apply Z.gtb_lt in E. lia.
      * rewrite Z.gtb_ltb in E. apply Z.ltb_ge in E. lia.
    + destruct (check_flags_bits m Hs) as (_ & _ & B2 & _).
      rewrite B2, Z.gtb_lt. lia.
  - apply Check_peak_unsampled.
Qed.

Lemma peak_usage_monotone_witness :
  samples machine_sampling = true /\
  stackscope_peak_usage (mon (exec StackScope_Check machine_sampling))
  = Z.max (stackscope_peak_usage (mon machine_sampling))
          (painted_usage_of machine_sampling) /\
  stackscope_peak_usage (mon (exec StackScope_Check machine_sampling)) = 0x2F.
Proof.
  split; [reflexivity|]. split.
  - apply (proj1 (proj2 (proj2 peak_usage_monotone)) machine_sampling eq_refl).
  - vm_compute. reflexivity.
Defined.

(** ** Stack painter *)

(** The paint loop touches neither the globals, nor the transport, nor the
    registers, whatever its arguments. *)
Lemma paint_loop_frame (paint_end : Z) (n : nat) :
  forall (p : Z) (m : machine),
    mon (exec (paint_loop n p paint_end) m) = mon m /\
    uart (exec (paint_loop n p paint_end) m) = uart m /\
    SP (hw (exec (paint_loop n p paint_end) m)) = SP (hw m) /\
    brkval (hw (exec (paint_loop n p paint_end) m)) = brkval (hw m) /\
    heap_start (hw (exec (paint_loop n p paint_end) m)) = heap_start (hw m).
Proof.
  induction n as [|n IH]; intros p m.
  - cbn. repeat split; reflexivity.
  - cbn [paint_loop]. destruct (p <? paint_end).
    + rewrite exec_bind.
      destruct (IH (u16 (p + 1)) (exec (store p STACKSCOPE_PAINT_PATTERN) m))
        as (H1 & H2 & H3 & H4 & H5).
      rewrite H1, H2, H3, H4, H5. cbn. repeat split; reflexivity.
    + cbn. repeat split; reflexivity.
Qed.

Lemma PaintStack_unfold (m : machine) :
  exec StackScope_PaintStack m =
  if u16 (SP (hw m) - 32) >? heap_end_of m then
    exec (set_painted_end (u16 (SP (hw m) - 32)))
         (exec (paint_loop (Z.to_nat (u16 (SP (hw m) - 32) - heap_end_of m))
                           (heap_end_of m) (u16 (SP (hw m) - 32))) m)
  else m.
Proof.
  unfold StackScope_PaintStack. rewrite exec_bind.
  change (exec StackScope_GetSP m) with m.
  change (eval StackScope_GetSP m) with (SP (hw m)).
  rewrite exec_bind.
  assert (He : exec StackScope_GetHeapEnd m = m)
    by (unfold exec; rewrite GetHeapEnd_run; reflexivity).
  rewrite He. fold (heap_end_of m).
  destruct (u16 (SP (hw m) - 32) >? heap_end_of m); [|reflexivity].
  rewrite exec_bind. reflexivity.
Qed.

(** Painting leaves the enable flag, the call counter, the peak and the
    transport alone, and does not move the stack pointer or the heap. *)
Lemma PaintStack_frame (m : machine) :
  stackscope_enabled (mon (exec StackScope_PaintStack m))
  = stackscope_enabled (mon m) /\
  stackscope_call_counter (mon (exec StackScope_PaintStack m))
  = stackscope_call_counter (mon m) /\
  stackscope_peak_usage (mon (exec StackScope_PaintStack m))
  = stackscope_peak_usage (mon m) /\
  uart (exec StackScope_PaintStack m) = uart m /\
  SP (hw (exec StackScope_PaintStack m)) = SP (hw m) /\
  brkval (hw (exec StackScope_PaintStack m)) = brkval (hw m) /\
  heap_start (hw (exec StackScope_PaintStack m)) = heap_start (hw m).
Proof.
  rewrite PaintStack_unfold.
  destruct (u16 (SP (hw m) - 32) >? heap_end_of m).
  - destruct (paint_loop_frame (u16 (SP (hw m) - 32))
                (Z.to_nat (u16 (SP (hw m) - 32) - heap_end_of m))
                (heap_end_of m) m) as (H1 & H2 & H3 & H4 & H5).
    cbn. rewrite H1, H2, H3, H4, H5. repeat split; reflexivity.
  - repeat split; reflexivity.
Qed.

Lemma PaintStack_paints (m : machine) :
  wf_platform (hw m) ->
  heap_end_of m < u16 (SP (hw m) - 32) ->
  let paint_start := heap_end_of m in
  let paint_end := u16 (SP (hw m) - 32) in
  let m' := exec StackScope_PaintStack m in
  mon m' = Monitor (stackscope_enabled (mon m))
                   (stackscope_call_counter (mon m))
                   (stackscope_peak_usage (mon m))
                   paint_end /\
  stores m' = stores m
              ++ addresses paint_start (Z.to_nat (paint_end - paint_start)) /\
  forall a, ram (hw m') a =
            if (paint_start <=? a) && (a <? paint_end)
            then STACKSCOPE_PAINT_PATTERN else ram (hw m) a.
Proof.
  intros Hhw Hlt. cbv zeta. rewrite PaintStack_unfold.
  assert (E : (u16 (SP (hw m) - 32) >? heap_end_of m) = true)
    by (apply Z.gtb_lt; exact Hlt).
  rewrite E.
  pose proof (heap_end_of_range m Hhw) as Hhe. unfold is_u16 in Hhe.
  destruct (paint_loop_run (u16 (SP (hw m) - 32)) (u16_range _)
              (Z.to_nat (u16 (SP (hw m) - 32) - heap_end_of m))
              (heap_end_of m) m) as (H1 & _ & _ & _ & _ & H6 & H7);
    [lia | lia |].
  cbn. rewrite H1, H6. split; [reflexivity|]. split; [reflexivity|].
  exact H7.
Qed.

Lemma PaintStack_skips (m : machine) :
  u16 (SP (hw m) - 32) <= heap_end_of m ->
  exec StackScope_PaintStack m = m /\ stored StackScope_PaintStack m = [].
Proof.
  intros Hle.
  assert (Hm : exec StackScope_PaintStack m = m).
  { rewrite PaintStack_unfold.
    destruct (u16 (SP (hw m) - 32) >? heap_end_of m) eqn:E;
      [apply Z.gtb_lt in E; lia | reflexivity]. }
  split; [exact Hm|].
  apply stored_of_stores. rewrite Hm, app_nil_r. reflexivity.
Qed.

(** C6, as stated, fails: [paint_end] is the 16-bit value of [SP - 32].
    With a stack pointer of 0x0010 the integer [SP - 32] is below the heap
    end 0x0300, yet [paint_end] wraps to 0xFFF0 and the painter runs: it
    stores from 0x0300 upwards, through the end of RAM, and moves the
    painted boundary. *)
Lemma PaintStack_margin_underflow :
  wf_machine machine_low_sp /\
  SP (hw machine_low_sp) - 32 <= heap_end_of machine_low_sp /\
  In 0x0300 (stored StackScope_PaintStack machine_low_sp) /\
  ram (hw (exec StackScope_PaintStack machine_low_sp)) RAMEND
  = STACKSCOPE_PAINT_PATTERN /\
  ram (hw machine_low_sp) RAMEND <> STACKSCOPE_PAINT_PATTERN /\
  stackscope_painted_end (mon (exec StackScope_PaintStack machine_low_sp))
  = 0xFFF0 /\
  stackscope_painted_end (mon machine_low_sp) = 0.
Proof.
  assert (Hwf : wf_machine machine_low_sp) by solve_wf.
  assert (Hlt : heap_end_of machine_low_sp
                < u16 (SP (hw machine_low_sp) - 32))
    by (vm_compute; reflexivity).
  destruct (PaintStack_paints machine_low_sp (proj2 Hwf) Hlt)
    as (Hmon & Hst & Hram).
  cbv zeta in Hmon, Hst, Hram.
  split; [exact Hwf|]. split; [vm_compute; discriminate|].
  split; [|split; [|split; [|split]]].
  - rewrite (stored_of_stores _ _ _ Hst), addresses_In. vm_compute.
    split; [discriminate | reflexivity].
  - rewrite Hram. vm_compute. reflexivity.
  - vm_compute. discriminate.
  - rewrite Hmon. vm_compute. reflexivity.
  - reflexivity.
Qed.

(** C6 (amended).  With [paint_start] the heap end and [paint_end] the
    16-bit value [SP - 32]: if [paint_end <= paint_start],
    [StackScope_PaintStack] returns the machine unchanged, so nothing is
    stored and the painted boundary keeps its value.  Otherwise the addresses stored to are exactly
    [paint_start], ..., [paint_end - 1]; each of them holds 0xAA afterwards,
    every other byte (in particular each one at or above [paint_end]) is
    what it was, and the painted boundary is [paint_end].  For a stack
    pointer of at least 32 the 16-bit value is the integer [SP - 32]. *)
Theorem PaintStack_spec (m : machine) :
  wf_platform (hw m) ->
  let paint_start := heap_end_of m in
  let paint_end := u16 (SP (hw m) - 32) in
  let m' := exec StackScope_PaintStack m in
  (32 <= SP (hw m) -> paint_end = SP (hw m) - 32) /\
  (paint_end <= paint_start ->
   m' = m /\ stored StackScope_PaintStack m = []) /\
  (paint_start < paint_end ->
   stored StackScope_PaintStack m
   = addresses paint_start (Z.to_nat (paint_end - paint_start)) /\
   (forall a, In a (stored StackScope_PaintStack m) <->
              paint_start <= a < paint_end) /\
   (forall a, paint_start <= a < paint_end ->
              ram (hw m') a = STACKSCOPE_PAINT_PATTERN) /\
   (forall a, ~ paint_start <= a < paint_end ->
              ram (hw m') a = ram (hw m) a) /\
   stackscope_painted_end (mon m') = paint_end).
Proof.
  intros Hhw. cbv zeta. split; [|split].
  - intros H32. apply u16_id. destruct Hhw as (Hsp & _).
    unfold is_u16 in *. lia.
  - apply PaintStack_skips.
  - intros Hlt.
    destruct (PaintStack_paints m Hhw Hlt) as (Hmon & Hst & Hram).
    cbv zeta in Hmon, Hst, Hram.
    pose proof (stored_of_stores _ _ _ Hst) as Hsd.
    split; [exact Hsd|]. split; [|split; [|split]].
    + intros a. rewrite Hsd, addresses_In. lia.
    + intros a Ha. rewrite Hram.
      destruct (heap_end_of m <=? a) eqn:E1,
               (a <? u16 (SP (hw m) - 32)) eqn:E2; cbn; try reflexivity; lia.
    + intros a Ha. rewrite Hram.
      destruct (heap_end_of m <=? a) eqn:E1,
               (a <? u16 (SP (hw m) - 32)) eqn:E2; cbn; try reflexivity; lia.
    + rewrite Hmon. reflexivity.
Qed.

Lemma PaintStack_spec_witness :
  wf_platform (hw machine_paintable) /\
  heap_end_of machine_paintable < u16 (SP (hw machine_paintable) - 32) /\
  stored StackScope_PaintStack machine_paintable
  = addresses 0x0300 32 /\
  stackscope_painted_end (mon (exec StackScope_PaintStack machine_paintable))
  = 0x0320.
Proof.
  assert (Hwf : wf_platform (hw machine_paintable)).
  { solve_wf. }
  assert (Hlt : heap_end_of machine_paintable
                < u16 (SP (hw machine_paintable) - 32))
    by (vm_compute; reflexivity).
  split; [exact Hwf|]. split; [exact Hlt|].
  destruct (PaintStack_spec machine_paintable Hwf) as (_ & _ & Hp).
  destruct (Hp Hlt) as (Hst & _ & _ & _ & Hpe).
  split; [exact Hst | exact Hpe].
Defined.

(** ** Telemetry framer *)

Lemma high_byte (x : Z) : is_u16 x -> u8 (Z.shiftr x 8) = x / 256.
Proof.
  unfold is_u16, u8. intros H. rewrite Z.shiftr_div_pow2 by lia.
  change (2 ^ 8) with 256. apply Z.mod_small.
  split; [apply Z.div_pos; lia | apply Z.div_lt_upper_bound; lia].
Qed.

Lemma low_byte (x : Z) : u8 (Z.land x 0xFF) = x mod 256.
Proof.
  unfold u8. change 0xFF with (Z.ones 8). rewrite Z.land_ones by lia.
  change (2 ^ 8) with 256. apply Z.mod_mod. lia.
Qed.

Lemma be16_bytes (x : Z) : is_u16 x -> Forall is_u8 (be16 x).
Proof.
  unfold is_u16, is_u8, be16. intros H.
  apply Forall_cons.
  - split; [apply Z.div_pos; lia | apply Z.div_lt_upper_bound; lia].
  - apply Forall_cons; [apply Z.mod_pos_bound; lia | apply Forall_nil].
Qed.

Lemma be16_decode_encode (x : Z) : be16_decode (x / 256) (x mod 256) = x.
Proof. unfold be16_decode. symmetry. apply Z.div_mod. lia. Qed.

Lemma Check_sample_peak_range (m : machine) :
  wf_monitor (mon m) -> samples m = true ->
  is_u16 (stackscope_peak_usage (mon (exec StackScope_Check m))).
Proof.
  intros (_ & _ & Hpk & _) Hs. unfold exec.
  rewrite (Check_sample_run m Hs). cbn.
  destruct (painted_usage_of m >? stackscope_peak_usage (mon m));
    [apply painted_usage_of_range | exact Hpk].
Qed.

(** C7.  A sampling call appends exactly ten bytes to the transport: the
    header 0xFE, the flags byte, then stack usage, peak usage (as updated
    by this call), heap usage and free memory, each a 16-bit value sent
    high byte first.  Every element is a byte, and byte pairs 2-3, 4-5, 6-7
    and 8-9 decode big-endian to the four fields. *)
Theorem Check_frame_layout (m : machine) :
  wf_machine m ->
  samples m = true ->
  let frame := emitted StackScope_Check m in
  let stack_usage := painted_usage_of m in
  let peak_usage := stackscope_peak_usage (mon (exec StackScope_Check m)) in
  let heap_usage := heap_usage_of m in
  let free_memory := Z.max 0 (SP (hw m) - heap_end_of m) in
  frame = [0xFE; check_flags m] ++ be16 stack_usage ++ be16 peak_usage
          ++ be16 heap_usage ++ be16 free_memory /\
  length frame = 10%nat /\
  Forall is_u8 frame /\
  be16_decode (nth 2 frame 0) (nth 3 frame 0) = stack_usage /\
  be16_decode (nth 4 frame 0) (nth 5 frame 0) = peak_usage /\
  be16_decode (nth 6 frame 0) (nth 7 frame 0) = heap_usage /\
  be16_decode (nth 8 frame 0) (nth 9 frame 0) = free_memory.
Proof.
  intros [Hmon Hhw] Hs. cbv zeta.
  pose proof (emitted_Check_sample m Hs) as He. cbv zeta in He.
  rewrite (free_memory_max m Hhw) in He.
  pose proof (painted_usage_of_range m) as Rsu.
  pose proof (Check_sample_peak_range m Hmon Hs) as Rpk.
  pose proof (heap_usage_of_range m) as Rhu.
  assert (Rfm : is_u16 (Z.max 0 (SP (hw m) - heap_end_of m))).
  { pose proof (heap_end_of_range m Hhw) as Hhe.
    destruct Hhw as (Hsp & _). unfold is_u16 in *. lia. }
  rewrite !high_byte, !low_byte in He by assumption.
  assert (Hframe : emitted StackScope_Check m =
                   [0xFE; check_flags m] ++ be16 (painted_usage_of m)
                   ++ be16 (stackscope_peak_usage
                              (mon (exec StackScope_Check m)))
                   ++ be16 (heap_usage_of m)
                   ++ be16 (Z.max 0 (SP (hw m) - heap_end_of m)))
    by exact He.
  split; [exact Hframe|]. rewrite Hframe.
  split; [reflexivity|]. split.
  - destruct (check_flags_bits m Hs) as (_ & _ & _ & _ & Hf).
    apply Forall_app. split.
    + apply Forall_cons; [unfold is_u8; lia|].
      apply Forall_cons; [exact Hf | apply Forall_nil].
    + repeat (apply Forall_app; split); apply be16_bytes; assumption.
  - cbn [app be16 nth]. rewrite !be16_decode_encode.
    repeat split; reflexivity.
Qed.

Lemma Check_frame_layout_witness :
  wf_machine machine_sampling /\
  samples machine_sampling = true /\
  emitted StackScope_Check machine_sampling
  = [0xFE; 0x0C; 0x00; 0x2F; 0x00; 0x2F; 0x01; 0x00; 0x05; 0xF0] /\
  length (emitted StackScope_Check machine_sampling) = 10%nat.
Proof.
  assert (Hwf : wf_machine machine_sampling).
  { solve_wf. }
  split; [exact Hwf|]. split; [reflexivity|].
  destruct (Check_frame_layout machine_sampling Hwf eq_refl)
    as (Hframe & Hlen & _).
  split; [vm_compute; reflexivity | exact Hlen].
Defined.

(** ** Handshake state machine *)

Lemma run_operation_enabled (o : operation) (m : machine) :
  stackscope_enabled (mon m) <> 0 ->
  stackscope_enabled (mon (exec (run_operation o) m)) <> 0.
Proof.
  intros Hen. destruct o; cbn [run_operation].
  - rewrite Check_enabled. exact Hen.
  - unfold StackScope_TriggerHandshake. rewrite exec_bind.
    rewrite (proj1 (PaintStack_frame _)). cbn. discriminate.
  - exact Hen.
Qed.

Lemma TriggerHandshake_unfold (m : machine) :
  exec StackScope_TriggerHandshake m
  = exec StackScope_PaintStack (exec (set_enabled 1) m).
Proof. unfold StackScope_TriggerHandshake. now rewrite exec_bind. Qed.

Lemma stored_TriggerHandshake (m : machine) :
  stored StackScope_TriggerHandshake m
  = stored StackScope_PaintStack (exec (set_enabled 1) m).
Proof. unfold stored. rewrite TriggerHandshake_unfold. reflexivity. Qed.

(** C8.  [StackScope_TriggerHandshake] sets the enable flag to 1 and then
    runs [StackScope_PaintStack]; the call counter, the peak and the
    transport keep their values.  Triggering again in the same architecture
    state repaints the same addresses and yields the same globals and the
    same memory contents.  Along every trace of [StackScope_Check],
    [StackScope_TriggerHandshake] and [StackScope_ResetPeak] calls, an
    enable flag that is set stays set. *)
Theorem handshake_state_machine :
  (forall m : machine,
      exec StackScope_TriggerHandshake m
      = exec StackScope_PaintStack (exec (set_enabled 1) m) /\
      stackscope_enabled (mon (exec StackScope_TriggerHandshake m)) = 1 /\
      stackscope_peak_usage (mon (exec StackScope_TriggerHandshake m))
      = stackscope_peak_usage (mon m) /\
      stackscope_call_counter (mon (exec StackScope_TriggerHandshake m))
      = stackscope_call_counter (mon m) /\
      uart (exec StackScope_TriggerHandshake m) = uart m) /\
  (forall m : machine,
      wf_platform (hw m) ->
      let m1 := exec StackScope_TriggerHandshake m in
      let m2 := exec StackScope_TriggerHandshake m1 in
      mon m2 = mon m1 /\
      (forall a, ram (hw m2) a = ram (hw m1) a) /\
      stored StackScope_TriggerHandshake m1
      = stored StackScope_TriggerHandshake m) /\
  (forall (trace : list (platform * operation)) (m : machine),
      stackscope_enabled (mon m) <> 0 ->
      stackscope_enabled (mon (run_operations trace m)) <> 0).
Proof.
  split; [|split].
  - intros m. rewrite TriggerHandshake_unfold.
    destruct (PaintStack_frame (exec (set_enabled 1) m))
      as (H1 & H2 & H3 & H4 & _).
    rewrite H1, H2, H3, H4. repeat split; reflexivity.
  - intros m Hhw. cbv zeta.
    rewrite !stored_TriggerHandshake, !TriggerHandshake_unfold.
    set (m0 := exec (set_enabled 1) m).
    set (m1 := exec StackScope_PaintStack m0).
    set (m1' := exec (set_enabled 1) m1).
    assert (Hhw0 : wf_platform (hw m0)) by exact Hhw.
    destruct (PaintStack_frame m0) as (_ & _ & _ & _ & F5 & F6 & F7).
    fold m1 in F5, F6, F7.
    assert (Hhw1 : wf_platform (hw m1')).
    { unfold wf_platform. change (hw m1') with (hw m1).
      rewrite F5, F6, F7. exact Hhw0. }
    assert (Hsp1 : SP (hw m1') = SP (hw m0)) by exact F5.
    assert (Hhe1 : heap_end_of m1' = heap_end_of m0).
    { rewrite !heap_end_of_eq. change (hw m1') with (hw m1).
      rewrite F6, F7. reflexivity. }
    destruct (Z_lt_le_dec (heap_end_of m0) (u16 (SP (hw m0) - 32)))
      as [Hlt | Hle].
    + destruct (PaintStack_paints m0 Hhw0 Hlt) as (Hmon0 & Hst0 & Hram0).
      cbv zeta in Hmon0, Hst0, Hram0. fold m1 in Hmon0, Hst0, Hram0.
      assert (Hlt1 : heap_end_of m1' < u16 (SP (hw m1') - 32))
        by (rewrite Hhe1, Hsp1; exact Hlt).
      destruct (PaintStack_paints m1' Hhw1 Hlt1) as (Hmon1 & Hst1 & Hram1).
      cbv zeta in Hmon1, Hst1, Hram1.
      rewrite (stored_of_stores _ _ _ Hst1), (stored_of_stores _ _ _ Hst0).
      rewrite Hsp1 in Hmon1. rewrite Hhe1, Hsp1 in Hram1.
      rewrite Hhe1, Hsp1.
      split; [|split; [|reflexivity]].
      * rewrite Hmon1, Hmon0. cbn. rewrite Hmon0. reflexivity.
      * intros a. rewrite Hram1. change (hw m1') with (hw m1).
        rewrite Hram0.
        destruct ((heap_end_of m0 <=? a) && (a <? u16 (SP (hw m0) - 32)));
          reflexivity.
    + destruct (PaintStack_skips m0 Hle) as [Hm0 Hs0]. fold m1 in Hm0.
      assert (Hle1 : u16 (SP (hw m1') - 32) <= heap_end_of m1')
        by (rewrite Hhe1, Hsp1; exact Hle).
      destruct (PaintStack_skips m1' Hle1) as [Hm1 Hs1].
      rewrite Hm1, Hs1, Hs0. unfold m1'. rewrite Hm0.
      repeat split; reflexivity.
  - intros trace. induction trace as [|[h o] t IH]; intros m Hen.
    + exact Hen.
    + cbn [run_operations]. apply IH. apply run_operation_enabled. exact Hen.
Qed.

Lemma handshake_state_machine_witness :
  wf_platform (hw machine_paintable) /\
  stackscope_enabled (mon (exec StackScope_TriggerHandshake machine_paintable))
  <> 0 /\
  mon (exec StackScope_TriggerHandshake
         (exec StackScope_TriggerHandshake machine_paintable))
  = mon (exec StackScope_TriggerHandshake machine_paintable) /\
  stackscope_enabled
    (mon (run_operations
            [(hw machine_sampling, OpCheck);
             (hw machine_collision, OpResetPeak);
             (hw machine_paintable, OpTriggerHandshake);
             (hw machine_sampling, OpCheck)]
            (exec StackScope_TriggerHandshake machine_paintable))) <> 0.
Proof.
  assert (Hwf : wf_platform (hw machine_paintable)).
  { solve_wf. }
  assert (Hen : stackscope_enabled
                  (mon (exec StackScope_TriggerHandshake machine_paintable))
                <> 0).
  { rewrite (proj1 (proj2 (proj1 handshake_state_machine machine_paintable))).
    discriminate. }
  split; [exact Hwf|]. split; [exact Hen|]. split.
  - apply (proj1 (proj2 handshake_state_machine) machine_paintable Hwf).
  - apply (proj2 (proj2 handshake_state_machine)). exact Hen.
Defined.

(** ** Empty heap *)

(** C9.  When [__brkval] is null, [StackScope_GetHeapEnd] returns
    [&__heap_start] and [StackScope_GetHeapUsage] returns 0, both without
    changing the machine, and every sample taken in that state has bit 3
    (HeapActive) clear. *)
Theorem empty_heap_reports_zero (m : machine) :
  brkval (hw m) = 0 ->
  StackScope_GetHeapEnd m = (heap_start (hw m), m) /\
  StackScope_GetHeapUsage m = (0, m) /\
  (samples m = true -> Z.testbit (check_flags m) 3 = false).
Proof.
  intros Hb. split; [|split].
  - rewrite GetHeapEnd_run, heap_end_of_eq, Hb. reflexivity.
  - rewrite GetHeapUsage_run, heap_usage_of_eq, Hb. reflexivity.
  - intros Hs. destruct (check_flags_bits m Hs) as (_ & _ & _ & B3 & _).
    rewrite B3, heap_usage_of_eq, Hb. reflexivity.
Qed.

Lemma empty_heap_reports_zero_witness :
  brkval (hw (with_hw (hw machine_near_wrap) machine_sampling)) = 0 /\
  samples (with_hw (hw machine_near_wrap) machine_sampling) = true /\
  Z.testbit (check_flags (with_hw (hw machine_near_wrap) machine_sampling)) 3
  = false.
Proof.
  split; [reflexivity|]. split; [reflexivity|].
  apply (empty_heap_reports_zero
           (with_hw (hw machine_near_wrap) machine_sampling) eq_refl).
  reflexivity.
Defined.

(** ** [StackScope_Check] never repaints *)

(** C10.  Whatever the state (disabled, enabled and rate-limited, or
    sampling), a call of [StackScope_Check] leaves the enable flag and the
    painted boundary as they were, stores to no address, and leaves data
    memory and the registers untouched; of the machine only the call
    counter, the peak and the transport log can differ afterwards. *)
Theorem Check_never_repaints (m : machine) :
  stackscope_enabled (mon (exec StackScope_Check m))
  = stackscope_enabled (mon m) /\
  stackscope_painted_end (mon (exec StackScope_Check m))
  = stackscope_painted_end (mon m) /\
  stored StackScope_Check m = [] /\
  stores (exec StackScope_Check m) = stores m /\
  hw (exec StackScope_Check m) = hw m /\
  exec StackScope_Check m
  = Machine (Monitor (stackscope_enabled (mon m))
                     (stackscope_call_counter (mon (exec StackScope_Check m)))
                     (stackscope_peak_usage (mon (exec StackScope_Check m)))
                     (stackscope_painted_end (mon m)))
            (hw m)
            (uart (exec StackScope_Check m))
            (stores m).
Proof.
  destruct (Check_frame_fields m) as (H1 & H2 & H3 & H4 & _).
  split; [exact H1|]. split; [exact H2|]. split; [|split; [exact H4|]].
  - apply stored_of_stores. rewrite H4, app_nil_r. reflexivity.
  - split; [exact H3|].
    rewrite <- H1, <- H2, <- H3, <- H4.
    destruct (exec StackScope_Check m) as [[en c pk pe] h u s]. reflexivity.
Qed.

(** ** Worked runs *)

(** Stack top five bytes above the heap break: all four flags are set, and
    the frame carries usage 0x05FA twice, heap usage 0x0100 and five free
    bytes. *)
Example Check_collision_frame :
  emitted StackScope_Check machine_collision
  = [0xFE; 0x0F; 0x05; 0xFA; 0x05; 0xFA; 0x01; 0x00; 0x00; 0x05].
Proof. vm_compute. reflexivity. Qed.

(** A suppressed call only advances the counter. *)
Example Check_suppressed_run :
  exec StackScope_Check machine_near_wrap
  = Machine (Monitor 1 65501 0 0) (hw machine_near_wrap) [] [].
Proof. reflexivity. Qed.

(** The counter wraps from 65535 to 0, and the wrapped call samples. *)
Example Check_wraps_counter :
  stackscope_call_counter
    (mon (run_checks (repeat (hw machine_near_wrap) 36) machine_near_wrap))
  = 0 /\
  length (uart (run_checks (repeat (hw machine_near_wrap) 36)
                           machine_near_wrap)) = 10%nat.
Proof. vm_compute. split; reflexivity. Qed.

(** Painting 0x0300..0x031F and scanning right away: the byte at the painted
    boundary 0x0320 was not painted, so the scan stops there. *)
Example Paint_then_scan :
  painted_usage_of (exec StackScope_PaintStack machine_paintable)
  = RAMEND - 0x0320.
Proof. vm_compute. reflexivity. Qed.

(** An untouched painted range is scanned down to the heap break. *)
Example Scan_untouched_range :
  painted_usage_of
    (Machine (Monitor 1 0 0 0x0320)
             (Platform 0x0340 0x0300 0x0200 (fun _ => 0xAA)) [] [])
  = RAMEND - 0x0300.
Proof. vm_compute. reflexivity. Qed.

Example IsHandshakeByte_values :
  StackScope_IsHandshakeByte 0xA5 = 1 /\ StackScope_IsHandshakeByte 0x5A = 0.
Proof. split; reflexivity. Qed.

(** * Further properties of the header *)

(** ** Initialisation and the life cycle *)

Lemma Init_unfold (m : machine) :
  exec StackScope_Init m
  = exec StackScope_PaintStack
      (Machine (Monitor 0 0 0 (stackscope_painted_end (mon m)))
               (hw m) (uart m) (stores m)).
Proof.
  unfold StackScope_Init. rewrite !exec_bind. reflexivity.
Qed.

Lemma run_checks_disabled (trace : list platform) :
  forall m : machine,
    stackscope_enabled (mon m) = 0 ->
    mon (run_checks trace m) = mon m /\
    uart (run_checks trace m) = uart m /\
    stores (run_checks trace m) = stores m /\
    check_emissions trace m = repeat [] (length trace).
Proof.
  induction trace as [|h t IH]; intros m Hen.
  - cbn. repeat split; reflexivity.
  - cbn [run_checks check_emissions length repeat].
    assert (Hen0 : stackscope_enabled (mon (with_hw h m)) = 0) by exact Hen.
    assert (Hex : exec StackScope_Check (with_hw h m) = with_hw h m)
      by (unfold exec; rewrite (Check_disabled _ Hen0); reflexivity).
    rewrite Hex, (emitted_Check_disabled _ Hen0).
    destruct (IH (with_hw h m) Hen0) as (Hm & Hu & Hst & He).
    rewrite Hm, Hu, Hst, He. repeat split; reflexivity.
Qed.

Lemma Init_fields (m : machine) :
  stackscope_enabled (mon (exec StackScope_Init m)) = 0 /\
  stackscope_call_counter (mon (exec StackScope_Init m)) = 0 /\
  stackscope_peak_usage (mon (exec StackScope_Init m)) = 0 /\
  uart (exec StackScope_Init m) = uart m /\
  stackscope_painted_end (mon (exec StackScope_Init m))
  = (if u16 (SP (hw m) - 32) >? heap_end_of m
     then u16 (SP (hw m) - 32) else stackscope_painted_end (mon m)).
Proof.
  rewrite Init_unfold.
  set (mz := Machine (Monitor 0 0 0 (stackscope_painted_end (mon m)))
                     (hw m) (uart m) (stores m)).
  destruct (PaintStack_frame mz) as (F1 & F2 & F3 & F4 & _).
  rewrite F1, F2, F3, F4. repeat split; try reflexivity.
  rewrite PaintStack_unfold.
  change (SP (hw mz)) with (SP (hw m)).
  assert (Hhe : heap_end_of mz = heap_end_of m)
    by (rewrite !heap_end_of_eq; reflexivity).
  rewrite Hhe.
  destruct (u16 (SP (hw m) - 32) >? heap_end_of m); reflexivity.
Qed.

(** X1.  [StackScope_Init] switches the monitor off whatever state it was
    in: enable flag, call counter and peak are 0 afterwards and the
    transport is untouched.  It does not clear the painted boundary: when
    there is no room to paint, the boundary of an earlier paint survives.
    After it, every trace of [StackScope_Check] calls is silent and leaves
    the globals alone. *)
Theorem Init_switches_off (m : machine) (trace : list platform) :
  let m0 := exec StackScope_Init m in
  stackscope_enabled (mon m0) = 0 /\
  stackscope_call_counter (mon m0) = 0 /\
  stackscope_peak_usage (mon m0) = 0 /\
  uart m0 = uart m /\
  stackscope_painted_end (mon m0)
  = (if u16 (SP (hw m) - 32) >? heap_end_of m
     then u16 (SP (hw m) - 32) else stackscope_painted_end (mon m)) /\
  check_emissions trace m0 = repeat [] (length trace) /\
  uart (run_checks trace m0) = uart m /\
  mon (run_checks trace m0) = mon m0.
Proof.
  cbv zeta.
  destruct (Init_fields m) as (I1 & I2 & I3 & I4 & I5).
  destruct (run_checks_disabled trace (exec StackScope_Init m) I1)
    as (Hm & Hu & _ & He).
  rewrite Hu, I4. repeat split; assumption.
Qed.

(** ** Counting frames *)

Lemma frames_sent_cons (h : platform) (t : list platform) (m : machine) :
  frames_sent (h :: t) m
  = ((if samples (with_hw h m) then 1 else 0)
     + frames_sent t (exec StackScope_Check (with_hw h m)))%nat.
Proof.
  unfold frames_sent. cbn [check_emissions filter].
  destruct (samples (with_hw h m)) eqn:Hs.
  - pose proof (emitted_Check_sample_length _ Hs) as Hl.
    destruct (emitted StackScope_Check (with_hw h m)); [discriminate|].
    reflexivity.
  - rewrite (emitted_Check_skip _ Hs). reflexivity.
Qed.

Lemma rate_div_step (c n : Z) :
  0 <= n ->
  (if (c + 1) mod 256 =? 0 then 1 else 0) + ((c + 1) mod 256 + n) / 256
  = (c mod 256 + (n + 1)) / 256.
Proof.
  intros Hn.
  assert (Hr : 0 <= c mod 256 < 256) by (apply Z.mod_pos_bound; lia).
  rewrite (Z.add_mod c 1 256) by lia. change (1 mod 256) with 1.
  destruct (Z.eq_dec (c mod 256) 255) as [E | E].
  - rewrite E. change ((255 + 1) mod 256) with 0.
    change (0 =? 0) with true. cbv iota.
    replace (255 + (n + 1)) with (1 * 256 + n) by lia.
    rewrite Z.div_add_l by lia. rewrite Z.add_0_l. reflexivity.
  - rewrite (Z.mod_small (c mod 256 + 1) 256) by lia.
    destruct (c mod 256 + 1 =? 0) eqn:E0; [apply Z.eqb_eq in E0; lia|].
    rewrite Z.add_0_l.
    replace (c mod 256 + 1 + n) with (c mod 256 + (n + 1)) by lia.
    reflexivity.
Qed.

Lemma run_checks_count (trace : list platform) :
  forall m : machine,
    stackscope_enabled (mon m) <> 0 ->
    Z.of_nat (frames_sent trace m)
    = (stackscope_call_counter (mon m) mod 256
       + Z.of_nat (length trace)) / 256 /\
    u16 (stackscope_call_counter (mon (run_checks trace m)))
    = u16 (stackscope_call_counter (mon m) + Z.of_nat (length trace)) /\
    stackscope_enabled (mon (run_checks trace m))
    = stackscope_enabled (mon m).
Proof.
  induction trace as [|h t IH]; intros m Hen.
  - cbn [length run_checks Z.of_nat]. rewrite !Z.add_0_r.
    split; [|split; reflexivity].
    unfold frames_sent. cbn. symmetry. apply Z.div_small.
    apply Z.mod_pos_bound. lia.
  - set (m0 := with_hw h m).
    assert (Hen0 : (stackscope_enabled (mon m0) =? 0) = false)
      by (apply Z.eqb_neq; exact Hen).
    set (c := stackscope_call_counter (mon m)).
    destruct (IH (exec StackScope_Check m0)) as (Hf & Hc & He).
    { rewrite Check_enabled. exact Hen. }
    rewrite (Check_counter m0 Hen0) in Hf, Hc.
    change (stackscope_call_counter (mon m0)) with c in Hf, Hc.
    rewrite Check_enabled in He.
    cbn [run_checks length]. fold m0. rewrite Nat2Z.inj_succ.
    split; [|split; [|exact He]].
    + rewrite frames_sent_cons. fold m0. rewrite Nat2Z.inj_add, Hf.
      pose proof (u16_mod_rate (c + 1)) as Hu.
      unfold STACKSCOPE_RATE_LIMIT in Hu. rewrite Hu.
      rewrite (samples_mod m0 Hen0).
      change (stackscope_call_counter (mon m0)) with c.
      unfold STACKSCOPE_RATE_LIMIT, Z.succ.
      rewrite <- (rate_div_step c (Z.of_nat (length t))) by lia.
      destruct ((c + 1) mod 256 =? 0); reflexivity.
    + rewrite Hc. unfold u16, Z.succ. rewrite Zplus_mod_idemp_l.
      f_equal. lia.
Qed.

Lemma uart_length_run_checks (trace : list platform) :
  forall m : machine,
    length (uart (run_checks trace m))
    = (length (uart m) + 10 * frames_sent trace m)%nat.
Proof.
  induction trace as [|h t IH]; intros m.
  - cbn. lia.
  - cbn [run_checks]. rewrite IH, frames_sent_cons, uart_Check, length_app.
    change (uart (with_hw h m)) with (uart m).
    destruct (samples (with_hw h m)) eqn:Hs.
    + rewrite (emitted_Check_sample_length _ Hs). lia.
    + rewrite (emitted_Check_skip _ Hs). cbn [length]. lia.
Qed.

(** X2.  While enabled, a trace of [n] calls of [StackScope_Check] started
    with call counter [c] transmits [(c mod 256 + n) / 256] frames, leaves
    the counter at [c + n] modulo 65536 and the monitor enabled.  So at most
    one call in 256 transmits, whatever the host does in between. *)
Theorem frames_sent_count (trace : list platform) (m : machine) :
  stackscope_enabled (mon m) <> 0 ->
  Z.of_nat (frames_sent trace m)
  = (stackscope_call_counter (mon m) mod 256
     + Z.of_nat (length trace)) / 256 /\
  u16 (stackscope_call_counter (mon (run_checks trace m)))
  = u16 (stackscope_call_counter (mon m) + Z.of_nat (length trace)) /\
  stackscope_enabled (mon (run_checks trace m))
  = stackscope_enabled (mon m).
Proof.
  intros Hen.
  destruct (run_checks_count trace m Hen) as (Hf & Hc & He).
  split; [exact Hf|]. split; [exact Hc | exact He].
Qed.

Lemma frames_sent_count_witness :
  stackscope_enabled (mon machine_near_wrap) <> 0 /\
  Z.of_nat (frames_sent (repeat (hw machine_collision) 600) machine_near_wrap)
  = 3.
Proof.
  assert (Hen : stackscope_enabled (mon machine_near_wrap) <> 0)
    by (cbn; discriminate).
  split; [exact Hen|].
  rewrite (proj1 (frames_sent_count (repeat (hw machine_collision) 600)
                    machine_near_wrap Hen)).
  rewrite repeat_length. vm_compute. reflexivity.
Defined.

(** X3.  The life cycle from power-up: after [StackScope_Init] and one
    [StackScope_TriggerHandshake], neither of which transmits, [n] calls of
    [StackScope_Check] transmit [n / 256] frames, so the first 255 calls are
    silent and every 256th call transmits, wherever the stack pointer and
    the heap were at each call.  The transport log has grown by ten bytes
    per frame. *)
Theorem life_cycle_frames (m : machine) (h : platform)
                          (trace : list platform) :
  let m1 := exec StackScope_TriggerHandshake
              (with_hw h (exec StackScope_Init m)) in
  uart m1 = uart m /\
  stackscope_enabled (mon m1) = 1 /\
  stackscope_call_counter (mon m1) = 0 /\
  stackscope_peak_usage (mon m1) = 0 /\
  Z.of_nat (frames_sent trace m1) = Z.of_nat (length trace) / 256 /\
  length (uart (run_checks trace m1))
  = (length (uart m) + 10 * frames_sent trace m1)%nat.
Proof.
  cbv zeta.
  set (mi := with_hw h (exec StackScope_Init m)).
  destruct (Init_fields m) as (I1 & I2 & I3 & I4 & _).
  rewrite TriggerHandshake_unfold.
  destruct (PaintStack_frame (exec (set_enabled 1) mi))
    as (F1 & F2 & F3 & F4 & _).
  set (m1 := exec StackScope_PaintStack (exec (set_enabled 1) mi)) in *.
  assert (Hen : stackscope_enabled (mon m1) = 1) by exact F1.
  assert (Hc : stackscope_call_counter (mon m1) = 0)
    by (rewrite F2; exact I2).
  assert (Hu : uart m1 = uart m) by (rewrite F4; exact I4).
  split; [exact Hu|]. split; [exact Hen|]. split; [exact Hc|].
  split; [rewrite F3; exact I3|].
  assert (Hen' : stackscope_enabled (mon m1) <> 0)
    by (rewrite Hen; discriminate).
  split.
  - rewrite (proj1 (run_checks_count trace m1 Hen')), Hc. reflexivity.
  - rewrite uart_length_run_checks, Hu. reflexivity.
Qed.

(** X4.  Whatever the state and the trace, each call of
    [StackScope_Check] emits either nothing or one whole frame of ten bytes
    that starts with the header 0xFE; the transport log is the old log
    followed by these emissions in call order, so it only ever grows, by
    ten bytes per frame. *)
Theorem transport_carries_whole_frames (trace : list platform)
                                       (m : machine) :
  Forall (fun f => f = [] \/ (length f = 10%nat /\ nth 0 f 0 = 0xFE))
         (check_emissions trace m) /\
  uart (run_checks trace m) = uart m ++ concat (check_emissions trace m) /\
  length (uart (run_checks trace m))
  = (length (uart m) + 10 * frames_sent trace m)%nat.
Proof.
  split; [|split; [apply uart_run_checks | apply uart_length_run_checks]].
  revert m. induction trace as [|h t IH]; intros m;
    cbn [check_emissions]; constructor; [|apply IH].
  destruct (samples (with_hw h m)) eqn:Hs.
  - right. split; [apply emitted_Check_sample_length; exact Hs|].
    pose proof (emitted_Check_sample _ Hs) as He. cbv zeta in He.
    rewrite He. reflexivity.
  - left. apply emitted_Check_skip. exact Hs.
Qed.

(** ** Painting and scanning together *)

Lemma scan_loop_agree (m m' : machine) (pe : Z) :
  0 <= heap_end_of m -> pe < 65536 ->
  heap_end_of m' = heap_end_of m ->
  (forall a, heap_end_of m < a <= pe -> ram (hw m') a = ram (hw m) a) ->
  forall (n : nat) (scan : Z),
    scan <= pe ->
    eval (scan_loop n scan) m' = eval (scan_loop n scan) m.
Proof.
  intros Hhe Hpe Heq Hram n.
  induction n as [|n IH]; intros scan Hs; [reflexivity|].
  rewrite !scan_loop_step, Heq.
  destruct (scan >? heap_end_of m) eqn:Egt; [|reflexivity].
  apply Z.gtb_lt in Egt. rewrite (Hram scan) by lia.
  destruct (negb (ram (hw m) scan =? STACKSCOPE_PAINT_PATTERN));
    [reflexivity|].
  rewrite (u16_id (scan - 1)) by (unfold is_u16; lia).
  apply IH. lia.
Qed.

(** X5.  The scanner reads memory only strictly above the heap end and up
    to the painted boundary: two machines with the same registers and the
    same painted boundary whose memories agree on that range report the
    same stack usage, however they differ elsewhere. *)
Theorem GetPaintedUsage_reads_painted_range (m m' : machine) :
  wf_machine m ->
  stackscope_painted_end (mon m') = stackscope_painted_end (mon m) ->
  SP (hw m') = SP (hw m) ->
  brkval (hw m') = brkval (hw m) ->
  heap_start (hw m') = heap_start (hw m) ->
  (forall a, heap_end_of m < a <= stackscope_painted_end (mon m) ->
             ram (hw m') a = ram (hw m) a) ->
  painted_usage_of m' = painted_usage_of m.
Proof.
  intros [(_ & _ & _ & Hpe) Hhw] Epe Esp Eb Ehs Hram.
  pose proof (heap_end_of_range m Hhw) as Hhe.
  unfold is_u16 in Hpe, Hhe.
  assert (Ehe : heap_end_of m' = heap_end_of m)
    by (rewrite !heap_end_of_eq, Eb, Ehs; reflexivity).
  rewrite !painted_usage_of_eq, Epe, Esp, Ehe.
  destruct (stackscope_painted_end (mon m) =? 0); [reflexivity|].
  rewrite (scan_loop_agree m m' (stackscope_painted_end (mon m)));
    try assumption; try lia.
Qed.

Lemma GetPaintedUsage_reads_painted_range_witness :
  wf_machine machine_sampling /\
  painted_usage_of
    (Machine (mon machine_sampling)
             (Platform 0x08F0 0x0300 0x0200
                       (fun a => if a <=? 0x0300 then 0x55
                                 else if a <? 0x08C0 then 0xAA else 0x00))
             [] [])
  = painted_usage_of machine_sampling.
Proof.
  assert (Hwf : wf_machine machine_sampling) by solve_wf.
  split; [exact Hwf|].
  apply (GetPaintedUsage_reads_painted_range machine_sampling _ Hwf);
    try reflexivity.
  intros a Ha. change (heap_end_of machine_sampling) with 768 in Ha.
  cbn [hw ram machine_sampling].
  destruct (a <=? 768) eqn:E; [apply Z.leb_le in E; lia | reflexivity].
Defined.

(** X6.  Painting and scanning at once, in the same architecture state: the
    painter fills [heap_end, paint_end) but the scanner starts at
    [paint_end] itself, which was not painted.  So right after a paint the
    reported usage is [RAMEND - paint_end] when the byte at [paint_end]
    differs from 0xAA, and [RAMEND - heap_end] (everything above the heap)
    when that byte happens to be 0xAA; nothing in between. *)
Theorem Paint_then_scan_result (m : machine) :
  wf_platform (hw m) ->
  heap_end_of m < u16 (SP (hw m) - 32) ->
  painted_usage_of (exec StackScope_PaintStack m)
  = if ram (hw m) (u16 (SP (hw m) - 32)) =? STACKSCOPE_PAINT_PATTERN
    then u16 (RAMEND - heap_end_of m)
    else u16 (RAMEND - u16 (SP (hw m) - 32)).
Proof.
  intros Hhw Hlt.
  destruct (PaintStack_paints m Hhw Hlt) as (Hmon & _ & Hram).
  cbv zeta in Hmon, Hram.
  destruct (PaintStack_frame m) as (_ & _ & _ & _ & _ & Fb & Fh).
  set (m' := exec StackScope_PaintStack m) in *.
  set (pe := u16 (SP (hw m) - 32)) in *.
  pose proof (heap_end_of_range m Hhw) as Hhe. unfold is_u16 in Hhe.
  pose proof (u16_range (SP (hw m) - 32)) as Hpe.
  fold pe in Hpe. unfold is_u16 in Hpe.
  assert (Ehe : heap_end_of m' = heap_end_of m)
    by (rewrite !heap_end_of_eq, Fb, Fh; reflexivity).
  assert (Epe : stackscope_painted_end (mon m') = pe)
    by (rewrite Hmon; reflexivity).
  rewrite painted_usage_of_eq, Epe, Ehe.
  destruct (pe =? 0) eqn:E0; [apply Z.eqb_eq in E0; lia|].
  assert (Hstop := scan_loop_stop m' ltac:(rewrite Ehe; lia)
                     (Z.to_nat (pe - heap_end_of m)) pe (proj2 Hpe)
                     ltac:(rewrite Ehe; lia)).
  cbv zeta in Hstop. rewrite Ehe in Hstop.
  destruct Hstop as [_ Hgt]. destruct (Hgt Hlt) as (Hr & Hall & Hend).
  set (r := eval (scan_loop (Z.to_nat (pe - heap_end_of m)) pe) m') in *.
  assert (Hpe_byte : ram (hw m') pe = ram (hw m) pe).
  { rewrite Hram. destruct (heap_end_of m <=? pe) eqn:E1,
                           (pe <? pe) eqn:E2; cbn; try reflexivity; lia. }
  assert (Hpainted : forall a, heap_end_of m < a < pe ->
                               ram (hw m') a = STACKSCOPE_PAINT_PATTERN).
  { intros a Ha. rewrite Hram.
    destruct (heap_end_of m <=? a) eqn:E1, (a <? pe) eqn:E2;
      cbn; try reflexivity; lia. }
  destruct (ram (hw m) pe =? STACKSCOPE_PAINT_PATTERN) eqn:Eb.
  - apply Z.eqb_eq in Eb. f_equal. f_equal.
    destruct Hend as [Hend | Hend]; [exact Hend|].
    destruct (Z.eq_dec r pe) as [-> | Hne];
      [rewrite Hpe_byte in Hend; contradiction|].
    destruct (Z.eq_dec r (heap_end_of m)) as [Hrh | Hrh]; [exact Hrh|].
    exfalso. apply Hend. apply Hpainted. lia.
  - apply Z.eqb_neq in Eb. f_equal. f_equal.
    destruct (Z.eq_dec r pe) as [Hrp | Hne]; [exact Hrp|].
    exfalso. apply Eb. rewrite <- Hpe_byte. apply Hall. lia.
Qed.

Lemma Paint_then_scan_result_witness :
  wf_platform (hw machine_paintable) /\
  heap_end_of machine_paintable < u16 (SP (hw machine_paintable) - 32) /\
  painted_usage_of (exec StackScope_PaintStack machine_paintable)
  = RAMEND - 0x0320.
Proof.
  assert (Hwf : wf_platform (hw machine_paintable)) by solve_wf.
  assert (Hlt : heap_end_of machine_paintable
                < u16 (SP (hw machine_paintable) - 32))
    by (vm_compute; reflexivity).
  split; [exact Hwf|]. split; [exact Hlt|].
  rewrite (Paint_then_scan_result machine_paintable Hwf Hlt).
  vm_compute. reflexivity.
Defined.

(** X7.  Bounds of the scanner.  With a painted boundary that lies between
    the heap end and [RAMEND], the reported usage lies between
    [RAMEND - painted_end] and [RAMEND - heap_end]: the scan never stops
    below the heap end nor above the boundary, and the 16-bit difference
    does not wrap. *)
Theorem GetPaintedUsage_bounds (m : machine) :
  wf_machine m ->
  stackscope_painted_end (mon m) <> 0 ->
  heap_end_of m <= stackscope_painted_end (mon m) <= RAMEND ->
  RAMEND - stackscope_painted_end (mon m)
  <= painted_usage_of m
  <= RAMEND - heap_end_of m.
Proof.
  intros [(_ & _ & _ & Hpe) Hhw] H0 [Hle Hram].
  pose proof (heap_end_of_range m Hhw) as Hhe.
  unfold is_u16 in Hpe, Hhe.
  set (pe := stackscope_painted_end (mon m)) in *.
  assert (Hstop := scan_loop_stop m (proj1 Hhe) (Z.to_nat (pe - heap_end_of m))
                     pe (proj2 Hpe) ltac:(lia)).
  cbv zeta in Hstop. destruct Hstop as [Hs1 Hs2].
  rewrite painted_usage_of_eq. fold pe.
  destruct (pe =? 0) eqn:E0; [apply Z.eqb_eq in E0; contradiction|].
  set (r := eval (scan_loop (Z.to_nat (pe - heap_end_of m)) pe) m) in *.
  assert (Hr : heap_end_of m <= r <= pe).
  { destruct (Z.eq_dec pe (heap_end_of m)) as [E | E].
    - rewrite Hs1 by lia. lia.
    - destruct Hs2 as (Hr & _); lia. }
  assert (HR : RAMEND = 2303) by reflexivity.
  rewrite u16_id by (unfold is_u16; lia). lia.
Qed.

Lemma GetPaintedUsage_bounds_witness :
  wf_machine machine_sampling /\
  RAMEND - stackscope_painted_end (mon machine_sampling)
  <= painted_usage_of machine_sampling
  <= RAMEND - heap_end_of machine_sampling.
Proof.
  assert (Hwf : wf_machine machine_sampling) by solve_wf.
  split; [exact Hwf|].
  apply (GetPaintedUsage_bounds machine_sampling Hwf).
  - cbn. discriminate.
  - vm_compute. split; discriminate.
Defined.

(** ** Heap accessors and memory accounting *)

Lemma u16_add_sub (a b : Z) : is_u16 a -> u16 (b + u16 (a - b)) = a.
Proof.
  intros Ha. unfold u16. rewrite Zplus_mod_idemp_r.
  replace (b + (a - b)) with a by lia. apply Z.mod_small. exact Ha.
Qed.

(** X8.  The two heap accessors agree: the heap end is the heap start plus
    the reported heap usage, as 16-bit values, whether or not anything was
    ever allocated; and the reported usage is zero exactly when the heap
    end is the heap start. *)
Theorem heap_accessors_agree (m : machine) :
  wf_platform (hw m) ->
  heap_end_of m = u16 (heap_start (hw m) + heap_usage_of m) /\
  (heap_usage_of m = 0 <-> heap_end_of m = heap_start (hw m)).
Proof.
  intros (_ & Hb & Hs).
  rewrite heap_end_of_eq, heap_usage_of_eq.
  destruct (brkval (hw m) =? 0) eqn:E.
  - rewrite Z.add_0_r, u16_id by exact Hs. split; [reflexivity|].
    split; reflexivity.
  - rewrite u16_add_sub by exact Hb. split; [reflexivity|].
    unfold is_u16 in *. unfold u16. split.
    + intros H0.
      assert (Hm : (brkval (hw m) - heap_start (hw m)) mod 65536 = 0)
        by exact H0.
      apply Z.mod_divide in Hm; [|lia]. destruct Hm as [k Hk]. lia.
    + intros ->. rewrite Z.sub_diag. reflexivity.
Qed.

Lemma heap_accessors_agree_witness :
  wf_platform (hw machine_sampling) /\
  heap_end_of machine_sampling
  = u16 (heap_start (hw machine_sampling) + heap_usage_of machine_sampling).
Proof.
  assert (Hwf : wf_platform (hw machine_sampling)) by solve_wf.
  split; [exact Hwf|].
  apply (heap_accessors_agree machine_sampling Hwf).
Defined.

(** X9.  Accounting before any paint.  With no painted boundary and the
    usual layout [heap_start <= heap_end <= SP <= RAMEND], the three sizes
    that a frame reports partition the RAM above the heap start: stack
    usage, free memory and heap usage add up to [RAMEND - heap_start]. *)
Theorem fallback_fields_partition_ram (m : machine) :
  wf_platform (hw m) ->
  stackscope_painted_end (mon m) = 0 ->
  heap_start (hw m) <= heap_end_of m ->
  heap_end_of m <= SP (hw m) <= RAMEND ->
  painted_usage_of m + Z.max 0 (SP (hw m) - heap_end_of m) + heap_usage_of m
  = RAMEND - heap_start (hw m).
Proof.
  intros Hhw Hpe Hhs [Hhe Hsp].
  pose proof (heap_end_of_range m Hhw) as Rhe.
  destruct Hhw as (Rsp & Rb & Rhs). unfold is_u16 in *.
  assert (HR : RAMEND = 2303) by reflexivity.
  rewrite painted_usage_of_eq, Hpe. cbn [Z.eqb].
  rewrite u16_id by (unfold is_u16; lia).
  rewrite heap_end_of_eq in *. rewrite heap_usage_of_eq.
  destruct (brkval (hw m) =? 0).
  - lia.
  - rewrite u16_id by (unfold is_u16; lia). lia.
Qed.

Lemma fallback_fields_partition_ram_witness :
  wf_platform (hw machine_collision) /\
  painted_usage_of machine_collision
  + Z.max 0 (SP (hw machine_collision) - heap_end_of machine_collision)
  + heap_usage_of machine_collision
  = RAMEND - heap_start (hw machine_collision).
Proof.
  assert (Hwf : wf_platform (hw machine_collision)) by solve_wf.
  split; [exact Hwf|].
  apply (fallback_fields_partition_ram machine_collision Hwf).
  - reflexivity.
  - vm_compute. discriminate.
  - vm_compute. split; discriminate.
Defined.

(** ** More on the flags *)

Lemma u16_wrapped (x : Z) : 65536 <= x < 131072 -> u16 x = x - 65536.
Proof.
  intros H. unfold u16. symmetry.
  apply (Z.mod_unique x 65536 1 (x - 65536)); lia.
Qed.

(** X10.  A frame never reports Collision without Alert: on every sampling
    call, bit 1 set implies bit 0 set.  This holds even where the 16-bit sum
    [heap_end + 16] wraps, since the stack pointer is then below the heap
    end and free memory is 0. *)
Theorem Collision_implies_Alert (m : machine) :
  wf_platform (hw m) ->
  samples m = true ->
  Z.testbit (check_flags m) 1 = true ->
  Z.testbit (check_flags m) 0 = true.
Proof.
  intros Hhw Hs.
  destruct (check_flags_bits m Hs) as (B0 & B1 & _).
  cbv zeta in B0. rewrite (free_memory_max m Hhw) in B0.
  rewrite B0, B1. intros Hc. apply Z.leb_le in Hc. apply Z.ltb_lt.
  pose proof (heap_end_of_range m Hhw) as Hhe.
  destruct Hhw as (Hsp & _). unfold is_u16 in *.
  unfold STACKSCOPE_ALERT_THRESHOLD.
  destruct (Z_lt_le_dec (heap_end_of m + 16) 65536) as [Hfit | Hwrap].
  - rewrite u16_id in Hc by (unfold is_u16; lia). lia.
  - rewrite u16_wrapped in Hc by lia. lia.
Qed.

Lemma Collision_implies_Alert_witness :
  wf_platform (hw machine_collision) /\
  samples machine_collision = true /\
  Z.testbit (check_flags machine_collision) 1 = true /\
  Z.testbit (check_flags machine_collision) 0 = true.
Proof.
  assert (Hwf : wf_platform (hw machine_collision)) by solve_wf.
  assert (Hc : Z.testbit (check_flags machine_collision) 1 = true)
    by (vm_compute; reflexivity).
  split; [exact Hwf|]. split; [reflexivity|]. split; [exact Hc|].
  exact (Collision_implies_Alert machine_collision Hwf eq_refl Hc).
Defined.

(** X11.  The flags byte uses the low four bits only: in every state its
    value is below 16, so bits 4 to 7 of the second frame byte are always
    clear. *)
Theorem check_flags_low_nibble (m : machine) :
  0 <= check_flags m < 16 /\
  forall k, 4 <= k -> Z.testbit (check_flags m) k = false.
Proof.
  assert (Hr : 0 <= check_flags m < 16).
  { destruct (samples m) eqn:Hs.
    - pose proof (Check_sample_run m Hs) as H. cbv zeta in H.
      unfold check_flags.
      erewrite emitted_of_uart;
        [|unfold exec; rewrite H; cbn [snd uart]; reflexivity].
      cbn [nth].
      destruct (painted_usage_of m >? stackscope_peak_usage (mon m));
        destruct ((if SP (hw m) >? heap_end_of m
                   then u16 (SP (hw m) - heap_end_of m) else 0)
                  <? STACKSCOPE_ALERT_THRESHOLD);
        destruct (SP (hw m) <=? u16 (heap_end_of m + 16));
        destruct (heap_usage_of m >? 0);
        vm_compute; split; congruence.
    - unfold check_flags. rewrite (emitted_Check_skip m Hs). cbn. lia. }
  split; [exact Hr|]. intros k Hk.
  destruct (Z.eq_dec (check_flags m) 0) as [E | E];
    [rewrite E; apply Z.bits_0|].
  apply Z.bits_above_log2; [lia|].
  apply Z.lt_le_trans with 4; [|exact Hk].
  apply Z.log2_lt_pow2; [lia|]. change (2 ^ 4) with 16. lia.
Qed.

Lemma check_flags_low_nibble_witness :
  4 <= 7 /\
  check_flags machine_collision = 0x0F /\
  Z.testbit (check_flags machine_collision) 7 = false.
Proof.
  assert (H47 : 4 <= 7) by lia.
  split; [exact H47|]. split; [vm_compute; reflexivity|].
  exact (proj2 (check_flags_low_nibble machine_collision) 7 H47).
Defined.

(** ** Sending a word *)

Lemma word_bytes (data : Z) :
  u8 (Z.shiftr data 8) = u16 data / 256 /\
  u8 (Z.land data 0xFF) = u16 data mod 256.
Proof.
  unfold u8, u16. rewrite Z.shiftr_div_pow2 by lia. change (2 ^ 8) with 256.
  change 0xFF with (Z.ones 8). rewrite Z.land_ones by lia.
  change (2 ^ 8) with 256. change 65536 with (256 * 256).
  rewrite Z.rem_mul_r by lia.
  assert (H1 : 0 <= data mod 256 < 256) by (apply Z.mod_pos_bound; lia).
  assert (H2 : 0 <= (data / 256) mod 256 < 256)
    by (apply Z.mod_pos_bound; lia).
  split.
  - rewrite (Z.mul_comm 256 ((data / 256) mod 256)), Z.div_add by lia.
    rewrite (Z.div_small (data mod 256)) by lia. lia.
  - rewrite Z.mod_mod by lia.
    rewrite (Z.mul_comm 256 ((data / 256) mod 256)), Z.mod_add by lia.
    rewrite Z.mod_mod by lia. reflexivity.
Qed.

(** X12.  [StackScope_SendWord] appends exactly two bytes to the transport,
    high byte first, and changes nothing else.  Both are byte values and
    they decode big-endian to the argument modulo 65536, so a 16-bit value
    is recovered exactly by the receiver. *)
Theorem SendWord_round_trip (data : Z) (m : machine) :
  exec (StackScope_SendWord data) m
  = Machine (mon m) (hw m) (uart m ++ be16 (u16 data)) (stores m) /\
  Forall is_u8 (be16 (u16 data)) /\
  be16_decode (nth 0 (emitted (StackScope_SendWord data) m) 0)
              (nth 1 (emitted (StackScope_SendWord data) m) 0)
  = u16 data /\
  (is_u16 data ->
   be16_decode (nth 0 (emitted (StackScope_SendWord data) m) 0)
               (nth 1 (emitted (StackScope_SendWord data) m) 0)
   = data).
Proof.
  destruct (word_bytes data) as [Hhi Hlo].
  assert (Hex : exec (StackScope_SendWord data) m
                = Machine (mon m) (hw m) (uart m ++ be16 (u16 data))
                          (stores m)).
  { unfold StackScope_SendWord, StackScope_SendByte, bind, modify, exec.
    cbn [snd mon hw uart stores].
    rewrite Hhi, Hlo, <- app_assoc. reflexivity. }
  assert (Hem : emitted (StackScope_SendWord data) m = be16 (u16 data))
    by (apply emitted_of_uart; rewrite Hex; reflexivity).
  split; [exact Hex|]. split; [apply be16_bytes, u16_range|].
  rewrite Hem. cbn [be16 nth]. rewrite be16_decode_encode.
  split; [reflexivity|]. intros Hd. apply u16_id. exact Hd.
Qed.

Lemma SendWord_round_trip_witness :
  is_u16 0x05FA /\
  be16_decode
    (nth 0 (emitted (StackScope_SendWord 0x05FA) machine_disabled) 0)
    (nth 1 (emitted (StackScope_SendWord 0x05FA) machine_disabled) 0)
  = 0x05FA.
Proof.
  assert (Hu : is_u16 0x05FA) by (unfold is_u16; lia).
  split; [exact Hu|].
  apply (proj2 (proj2 (proj2 (SendWord_round_trip 0x05FA machine_disabled)))).
  exact Hu.
Defined.

(** ** The peak over whole traces *)

Lemma Check_peak_step (m : machine) :
  stackscope_peak_usage (mon (exec StackScope_Check m))
  = fold_left Z.max
      (if samples m then [painted_usage_of m] else [])
      (stackscope_peak_usage (mon m)).
Proof.
  destruct (samples m) eqn:Hs.
  - unfold exec. rewrite (Check_sample_run m Hs). cbn.
    destruct (painted_usage_of m >? stackscope_peak_usage (mon m)) eqn:E.
    + apply Z.gtb_lt in E. lia.
    + rewrite Z.gtb_ltb in E. apply Z.ltb_ge in E. lia.
  - apply Check_peak_unsampled. exact Hs.
Qed.

Lemma run_checks_peak_fold (trace : list platform) :
  forall m : machine,
    stackscope_peak_usage (mon (run_checks trace m))
    = fold_left Z.max (sampled_usages trace m)
                (stackscope_peak_usage (mon m)).
Proof.
  induction trace as [|h t IH]; intros m; [reflexivity|].
  cbn [run_checks sampled_usages].
  rewrite IH, fold_left_app, Check_peak_step. reflexivity.
Qed.

Lemma fold_left_max_ge (l : list Z) :
  forall a : Z,
    a <= fold_left Z.max l a /\
    forall u, In u l -> u <= fold_left Z.max l a.
Proof.
  induction l as [|x l IH]; intros a; cbn [fold_left In].
  - split; [lia | contradiction].
  - destruct (IH (Z.max a x)) as [Ha Hin]. split; [lia|].
    intros u [-> | Hu]; [lia | apply Hin; exact Hu].
Qed.

(** X13.  The peak is the running maximum: after any trace of
    [StackScope_Check] calls it is the greatest of its initial value and
    the usages measured by the sampling calls, so no sampled usage exceeds
    it; calls that the rate limiter suppresses do not count.  After
    [StackScope_ResetPeak] the initial value is 0. *)
Theorem peak_is_running_maximum (trace : list platform) (m : machine) :
  stackscope_peak_usage (mon (run_checks trace m))
  = fold_left Z.max (sampled_usages trace m)
              (stackscope_peak_usage (mon m)) /\
  (forall u, In u (sampled_usages trace m) ->
             u <= stackscope_peak_usage (mon (run_checks trace m))) /\
  stackscope_peak_usage
    (mon (run_checks trace (exec StackScope_ResetPeak m)))
  = fold_left Z.max
      (sampled_usages trace (exec StackScope_ResetPeak m)) 0.
Proof.
  split; [apply run_checks_peak_fold|]. split.
  - intros u Hu. rewrite run_checks_peak_fold.
    apply (fold_left_max_ge (sampled_usages trace m)). exact Hu.
  - rewrite run_checks_peak_fold. reflexivity.
Qed.

Lemma peak_is_running_maximum_witness :
  In 0x2F (sampled_usages [hw machine_sampling; hw machine_collision]
                          machine_sampling) /\
  0x2F <= stackscope_peak_usage
            (mon (run_checks [hw machine_sampling; hw machine_collision]
                             machine_sampling)).
Proof.
  assert (Hin : In 0x2F (sampled_usages
                           [hw machine_sampling; hw machine_collision]
                           machine_sampling)).
  { assert (E : sampled_usages [hw machine_sampling; hw machine_collision]
                               machine_sampling = [0x2F])
      by (vm_compute; reflexivity).
    rewrite E. left. reflexivity. }
  split; [exact Hin|].
  exact (proj1 (proj2 (peak_is_running_maximum
                         [hw machine_sampling; hw machine_collision]
                         machine_sampling)) 0x2F Hin).
Defined.

(** X14.  PeakNew needs a new maximum: once a sample has reported some
    usage, no later sample reporting at most that usage sets bit 2,
    however many calls lie in between, as long as the peak is not reset. *)
Theorem PeakNew_needs_new_maximum (m : machine) (trace : list platform)
                                  (h : platform) :
  samples m = true ->
  let m2 := with_hw h (run_checks trace (exec StackScope_Check m)) in
  samples m2 = true ->
  painted_usage_of m2 <= painted_usage_of m ->
  Z.testbit (check_flags m2) 2 = false.
Proof.
  intros Hs m2 Hs2 Hle.
  destruct (check_flags_bits m2 Hs2) as (_ & _ & B2 & _).
  rewrite B2. rewrite Z.gtb_ltb. apply Z.ltb_ge.
  change (stackscope_peak_usage (mon m2))
    with (stackscope_peak_usage
            (mon (run_checks trace (exec StackScope_Check m)))).
  eapply Z.le_trans; [|apply run_checks_peak_le].
  rewrite Check_peak_step, Hs. cbn [fold_left]. lia.
Qed.

Lemma PeakNew_needs_new_maximum_witness :
  samples machine_sampling = true /\
  Z.testbit (check_flags machine_sampling) 2 = true /\
  Z.testbit
    (check_flags
       (with_hw (hw machine_sampling)
          (run_checks (repeat (hw machine_sampling) 255)
             (exec StackScope_Check machine_sampling)))) 2 = false.
Proof.
  split; [reflexivity|]. split; [vm_compute; reflexivity|].
  apply (PeakNew_needs_new_maximum machine_sampling
           (repeat (hw machine_sampling) 255) (hw machine_sampling) eq_refl).
  - vm_compute. reflexivity.
  - vm_compute. discriminate.
Defined.

(** ** Ranges are kept *)

Lemma PaintStack_wf (m : machine) :
  wf_machine m -> wf_machine (exec StackScope_PaintStack m).
Proof.
  intros [(He & Hc & Hp & Hpe) (Hsp & Hb & Hh)].
  destruct (PaintStack_frame m) as (F1 & F2 & F3 & _ & F5 & F6 & F7).
  unfold wf_machine, wf_monitor, wf_platform.
  rewrite F1, F2, F3, F5, F6, F7.
  split; [|exact (conj Hsp (conj Hb Hh))].
  split; [exact He|]. split; [exact Hc|]. split; [exact Hp|].
  rewrite PaintStack_unfold.
  destruct (u16 (SP (hw m) - 32) >? heap_end_of m);
    [apply u16_range | exact Hpe].
Qed.

Lemma zero_is_u8 : is_u8 0.
Proof. unfold is_u8. lia. Qed.

Lemma zero_is_u16 : is_u16 0.
Proof. unfold is_u16. lia. Qed.

Lemma run_call_wf (c : api_call) (m : machine) :
  wf_machine m -> wf_machine (exec (run_call c) m).
Proof.
  intros [(He & Hc & Hp & Hpe) Hhw]. destruct c; cbn [run_call].
  - rewrite Init_unfold. apply PaintStack_wf.
    split; [|exact Hhw].
    exact (conj zero_is_u8 (conj zero_is_u16 (conj zero_is_u16 Hpe))).
  - unfold exec. Check_cases m; cbn [snd]; (split; [|exact Hhw]).
    + split; [exact He|]. split; [apply u16_range|]. split; [|exact Hpe].
      cbn [mon stackscope_peak_usage].
      destruct (painted_usage_of m >? stackscope_peak_usage (mon m));
        [apply painted_usage_of_range | exact Hp].
    + exact (conj He (conj Hc (conj Hp Hpe))).
    + split; [exact He|]. split; [apply u16_range|].
      split; [exact Hp | exact Hpe].
  - rewrite TriggerHandshake_unfold. apply PaintStack_wf.
    split; [|exact Hhw].
    split; [unfold is_u8; cbn; lia|].
    exact (conj Hc (conj Hp Hpe)).
  - split; [|exact Hhw].
    exact (conj He (conj Hc (conj zero_is_u16 Hpe))).
  - split; [|exact Hhw]. exact (conj He (conj Hc (conj Hp Hpe))).
Qed.

(** X15.  Every public operation keeps the globals within their C types:
    starting from globals in range, along any trace of
    [StackScope_Init], [StackScope_Check], [StackScope_TriggerHandshake],
    [StackScope_ResetPeak] and [StackScope_GetPeak] calls made in
    architecture states with 16-bit registers, the enable flag stays a
    byte and counter, peak and painted boundary stay 16-bit values. *)
Theorem run_calls_keeps_ranges (trace : list (platform * api_call)) :
  forall m : machine,
    wf_machine m ->
    Forall (fun hc => wf_platform (fst hc)) trace ->
    wf_machine (run_calls trace m).
Proof.
  induction trace as [|[h c] t IH]; intros m Hwf Hall; [exact Hwf|].
  cbn [run_calls]. inversion Hall as [|x l Hh Ht]; subst.
  apply IH; [|exact Ht]. apply run_call_wf.
  split; [apply Hwf | exact Hh].
Qed.

Lemma run_calls_keeps_ranges_witness :
  wf_machine machine_near_wrap /\
  wf_machine
    (run_calls [(hw machine_paintable, CallInit);
                (hw machine_paintable, CallTriggerHandshake);
                (hw machine_sampling, CallCheck);
                (hw machine_collision, CallResetPeak);
                (hw machine_collision, CallGetPeak)]
               machine_near_wrap).
Proof.
  assert (Hwf : wf_machine machine_near_wrap) by solve_wf.
  split; [exact Hwf|].
  apply (run_calls_keeps_ranges _ machine_near_wrap Hwf).
  repeat (apply Forall_cons; [solve_wf|]). apply Forall_nil.
Defined.

(** ** The busy-wait *)

Lemma WaitTX_from (udre0 : Z) (status : nat -> Z) (k : nat) :
  (forall t, (t < k)%nat -> tx_busy udre0 (status t) = true) ->
  tx_busy udre0 (status k) = false ->
  forall (fuel t0 : nat),
    (t0 <= k)%nat -> (k - t0 < fuel)%nat ->
    StackScope_WaitTX udre0 status fuel t0 = Some k.
Proof.
  intros Hbusy Hready fuel.
  induction fuel as [|fuel IH]; intros t0 Hle Hfuel; [lia|].
  cbn [StackScope_WaitTX].
  destruct (Nat.eq_dec t0 k) as [-> | Hne].
  - rewrite Hready. reflexivity.
  - rewrite (Hbusy t0) by lia. apply IH; lia.
Qed.

Lemma WaitTX_never (udre0 : Z) (status : nat -> Z) :
  (forall t, tx_busy udre0 (status t) = true) ->
  forall (fuel t0 : nat), StackScope_WaitTX udre0 status fuel t0 = None.
Proof.
  intros Hbusy fuel.
  induction fuel as [|fuel IH]; intros t0; [reflexivity|].
  cbn [StackScope_WaitTX]. rewrite Hbusy. apply IH.
Qed.

Lemma WaitTX_sound (udre0 : Z) (status : nat -> Z) :
  forall (fuel t0 k : nat),
    StackScope_WaitTX udre0 status fuel t0 = Some k ->
    (t0 <= k)%nat /\
    tx_busy udre0 (status k) = false /\
    forall t, (t0 <= t < k)%nat -> tx_busy udre0 (status t) = true.
Proof.
  induction fuel as [|fuel IH]; intros t0 k H; [discriminate|].
  cbn [StackScope_WaitTX] in H.
  destruct (tx_busy udre0 (status t0)) eqn:E.
  - destruct (IH (S t0) k H) as (Hle & Hr & Hb).
    split; [lia|]. split; [exact Hr|].
    intros t Ht. destruct (Nat.eq_dec t t0) as [-> | Hne];
      [exact E | apply Hb; lia].
  - injection H as <-. split; [lia|]. split; [exact E|].
    intros t Ht. lia.
Qed.

(** X16.  [StackScope_WaitTX] returns at the first poll that finds the
    data-register-empty bit of [UCSR0A] set, and not before: if polls
    0, ..., [k - 1] read the bit clear and poll [k] reads it set, the wait
    ends at poll [k] for every bound above [k]; any result it gives is such
    a first ready poll; and if the bit never reads set, the wait does not
    end within any number of polls, so the caller is blocked for good. *)
Theorem WaitTX_blocks_until_ready (udre0 : Z) (status : nat -> Z) :
  (forall k : nat,
      (forall t, (t < k)%nat -> tx_busy udre0 (status t) = true) ->
      tx_busy udre0 (status k) = false ->
      forall fuel, (k < fuel)%nat ->
                   StackScope_WaitTX udre0 status fuel 0 = Some k) /\
  (forall fuel k : nat,
      StackScope_WaitTX udre0 status fuel 0 = Some k ->
      tx_busy udre0 (status k) = false /\
      forall t, (t < k)%nat -> tx_busy udre0 (status t) = true) /\
  ((forall t, tx_busy udre0 (status t) = true) ->
   forall fuel, StackScope_WaitTX udre0 status fuel 0 = None).
Proof.
  split; [|split].
  - intros k Hbusy Hready fuel Hfuel.
    apply (WaitTX_from udre0 status k Hbusy Hready); lia.
  - intros fuel k H.
    destruct (WaitTX_sound udre0 status fuel 0 k H) as (_ & Hr & Hb).
    split; [exact Hr|]. intros t Ht. apply Hb. lia.
  - intros Hbusy fuel. apply WaitTX_never. exact Hbusy.
Qed.

Lemma WaitTX_blocks_until_ready_witness :
  tx_busy 5 0x00 = true /\ tx_busy 5 0x20 = false /\
  StackScope_WaitTX 5 (fun t => if (t <? 3)%nat then 0x00 else 0x20) 10 0
  = Some 3%nat.
Proof.
  split; [reflexivity|]. split; [reflexivity|].
  apply (proj1 (WaitTX_blocks_until_ready 5
                  (fun t => if (t <? 3)%nat then 0x00 else 0x20)) 3%nat).
  - intros t Ht. destruct (t <? 3)%nat eqn:E; [reflexivity|].
    apply Nat.ltb_ge in E. lia.
  - reflexivity.
  - lia.
Defined.
